(** * Wholesale inventory and order backend (src/app.py)

    A shallow embedding of the Flask/SQLAlchemy application: the four
    tables of the store, the request handlers that change them, the two
    read-only listings, and the properties of the order transaction and of
    the order life cycle.

    Conventions of the embedding:
    - a decoded request body is a Python value ([pyval]); Python's [int]
      and [float] columns are [Z] and binary64 [float];
    - a table is the list of its rows in insertion (rowid) order; a fresh
      primary key is one more than the largest key of the table;
    - a handler is a function from the committed store to a response and
      the store after the request.  Work done on the session and never
      committed (an early [return], an exception) leaves the committed
      store as it was;
    - Python's conversions of a [str] to a number ([int(s)], [float(s)])
      are built-ins of the interpreter: they are variables of the section
      that holds the handlers, so every theorem holds whatever they do.

    - the storage engine keeps NULL in place of a NaN written to a REAL
      column, turns a number written to a text column into text, and
      refuses an integer outside 64 bits and a value that is no number and
      no text: see "What the storage engine keeps" below.

    Left out: the [created_at] columns, which no handler reads; the 64-bit
    range of the id in the route of a deletion, of a delivery and of the
    retailer pages, and of the stock a deletion writes back; the rendering
    of responses as JSON, CSV and ISO dates;
    white space outside ASCII in the blank test of the retailer
    reference. *)

From Stdlib Require Import ZArith List String Ascii Bool Floats Lia.
From Stdlib Require Import DecimalString.
From Stdlib Require Import Sorting.Sorted Sorting.Permutation.
Import ListNotations.
Open Scope string_scope.
Open Scope list_scope.
Open Scope Z_scope.

Set Implicit Arguments.
Set Warnings "-register-all".

(** ** Python values and built-ins *)

Module Py.

(** What [request.json] decodes to. *)
Inductive pyval : Type :=
| PNone
| PBool (b : bool)
| PInt (z : Z)
| PFloat (f : float)
| PStr (s : string)
| PList (l : list pyval)
| PDict (d : list (string * pyval)).

(** [DBAPIError] is the error of the database driver as the ORM raises it
    again (a value that cannot be bound, a constraint that fails). *)
Inductive pyexn : Type :=
| TypeError | ValueError | OverflowError | AttributeError | DBAPIError.

(** The outcome of evaluating an expression that may raise. *)
Inductive res (A : Type) : Type :=
| Val (a : A)
| Exc (e : pyexn).
Arguments Val {A} a.
Arguments Exc {A} e.

Definition bind {A B : Type} (r : res A) (k : A -> res B) : res B :=
  match r with
  | Val a => k a
  | Exc e => Exc e
  end.

Notation "x <- r ;; k" := (bind r (fun x => k))
  (at level 61, r at next level, right associativity).

(** [bool(v)]: the truth value the [not] and [if] of the handlers test. *)
Definition truthy (v : pyval) : bool :=
  match v with
  | PNone => false
  | PBool b => b
  | PInt z => negb (z =? 0)
  | PFloat f => negb (PrimFloat.eqb f 0%float)
  | PStr s => negb (String.eqb s "")
  | PList l => match l with [] => false | _ => true end
  | PDict d => match d with [] => false | _ => true end
  end.

Fixpoint lookup (k : string) (d : list (string * pyval)) : option pyval :=
  match d with
  | [] => None
  | (k', v) :: d' => if String.eqb k k' then Some v else lookup k d'
  end.

(** [v.get(k, default)]; only a mapping has the method. *)
Definition get (v : pyval) (k : string) (default : pyval) : res pyval :=
  match v with
  | PDict d => Val (match lookup k d with Some x => x | None => default end)
  | _ => Exc AttributeError
  end.

(** Python's white space among the ASCII characters: TAB..CR, FS..US, SPACE. *)
Definition is_space (c : ascii) : bool :=
  let n := Z.of_nat (nat_of_ascii c) in
  ((9 <=? n) && (n <=? 13)) || ((28 <=? n) && (n <=? 32)).

Fixpoint all_space (s : string) : bool :=
  match s with
  | EmptyString => true
  | String c s' => is_space c && all_space s'
  end.

(** [str(v).strip() == ""]: only a [str] of white space prints as blank. *)
Definition str_strip_is_empty (v : pyval) : bool :=
  match v with
  | PStr s => all_space s
  | _ => false
  end.

(** [sub in s] for two [str]. *)
Fixpoint contains (sub s : string) : bool :=
  if String.prefix sub s then true
  else match s with
       | EmptyString => false
       | String _ s' => contains sub s'
       end.

(** [float(z)] for an [int]: the nearest binary64, ties to even;
    [OverflowError] when that is not finite. *)
Definition float_of_Z (z : Z) : res float :=
  match binary_normalize prec emax z 0 false with
  | S754_infinity _ => Exc OverflowError
  | sf => Val (SF2Prim sf)
  end.

(** [int(f)] for a [float]: truncation towards zero. *)
Definition Z_of_float (f : float) : res Z :=
  match Prim2SF f with
  | S754_zero _ => Val 0
  | S754_finite s m e =>
      let a := if 0 <=? e then Z.shiftl (Z.pos m) e
               else Z.shiftr (Z.pos m) (- e) in
      Val (if s then - a else a)
  | S754_infinity _ => Exc OverflowError
  | S754_nan => Exc ValueError
  end.

(** [x * n] for a [float] and an [int]: the [int] is converted first. *)
Definition float_mul_int (x : float) (n : Z) : res float :=
  y <- float_of_Z n ;; Val (PrimFloat.mul x y).

Section Builtins.

(** [int(s)] and [float(s)] for a [str]; [None] is [ValueError]. *)
Variable int_of_str : string -> option Z.
Variable float_of_str : string -> option float.

Definition py_int (v : pyval) : res Z :=
  match v with
  | PNone => Exc TypeError
  | PBool b => Val (if b then 1 else 0)
  | PInt z => Val z
  | PFloat f => Z_of_float f
  | PStr s => match int_of_str s with Some z => Val z | None => Exc ValueError end
  | PList _ | PDict _ => Exc TypeError
  end.

Definition py_float (v : pyval) : res float :=
  match v with
  | PNone => Exc TypeError
  | PBool b => Val (if b then 1%float else 0%float)
  | PInt z => float_of_Z z
  | PFloat f => Val f
  | PStr s => match float_of_str s with Some f => Val f | None => Exc ValueError end
  | PList _ | PDict _ => Exc TypeError
  end.

End Builtins.

End Py.

Import Py.

(** ** The store: the four tables of the schema *)

(** The [created_at] columns are written once and read by no handler;
    they are left out.

    A REAL column ([cp], [sp], [mrp], [grand_total], [item_total]) never
    holds a NaN: the storage engine keeps NULL in its place.  In a row the
    NaN of [float] therefore stands for NULL, and [read_real] below is what
    Python reads from the column.

    A text column ([name], [shop_name], [address], [phone],
    [product_name]) holds NULL ([PNone]) or a text: [PStr s], or
    [PFloat f] for the text the engine renders the REAL [f] as, which is
    not computed here.  [store_text] below is what the engine keeps of a
    value written to it. *)
Record Product : Type := mkProduct {
  p_id : Z;
  p_name : pyval;
  p_cp : float;
  p_sp : float;
  p_mrp : float;
  p_stock : Z
}.

Record Retailer : Type := mkRetailer {
  r_id : Z;
  r_shop_name : pyval;
  r_address : pyval;
  r_phone : pyval
}.

(** [o_date] is the [datetime.utcnow()] of the insertion, as a number. *)
Record Order : Type := mkOrder {
  o_id : Z;
  o_retailer_id : Z;
  o_date : Z;
  o_grand_total : float;
  o_total_items : Z;
  o_status : string
}.

Record OrderItem : Type := mkOrderItem {
  oi_id : Z;
  oi_order_id : Z;
  oi_product_id : Z;
  oi_product_name : pyval;
  oi_cp : float;
  oi_sp : float;
  oi_mrp : float;
  oi_qty : Z;
  oi_item_total : float
}.

Record store : Type := mkStore {
  products : list Product;
  retailers : list Retailer;
  orders : list Order;
  order_items : list OrderItem
}.

(** [db.create_all()] on the first run. *)
Definition empty_store : store := mkStore [] [] [] [].

(** *** What the storage engine keeps *)

(** An integer the driver can bind: one of 64 bits. *)
Definition int64 (z : Z) : bool := (- 2 ^ 63 <=? z) && (z <=? 2 ^ 63 - 1).

(** Binding an [int]: beyond 64 bits the driver raises [OverflowError]. *)
Definition store_int (z : Z) : res Z :=
  if int64 z then Val z else Exc OverflowError.

(** The NULL of a REAL column. *)
Definition null_real : float := PrimFloat.nan.

(** What a REAL column keeps of a [float]: NULL for a NaN. *)
Definition store_real (x : float) : float :=
  if PrimFloat.is_nan x then null_real else x.

(** What Python reads from a REAL column: [None] for NULL. *)
Definition read_real (x : float) : option float :=
  if PrimFloat.is_nan x then None else Some x.

(** [x * n] for a REAL column [x] as read and an [int]: [None * n] raises
    [TypeError]. *)
Definition column_mul_int (x : float) (n : Z) : res float :=
  match read_real x with
  | None => Exc TypeError
  | Some v => float_mul_int v n
  end.

(** The decimal text of an integer. *)
Definition decimal (z : Z) : string := NilZero.string_of_int (Z.to_int z).

(** What a text column keeps of a value written to it: [None] as NULL, a
    text as it is, an [int] or a [bool] as its decimal text, a [float] as
    the text of the REAL (NULL for a NaN); a list or a mapping cannot be
    bound. *)
Definition store_text (v : pyval) : res pyval :=
  match v with
  | PNone => Val PNone
  | PStr s => Val (PStr s)
  | PBool b => Val (PStr (if b then "1" else "0"))
  | PInt z => if int64 z then Val (PStr (decimal z)) else Exc OverflowError
  | PFloat f => Val (if PrimFloat.is_nan f then PNone else PFloat f)
  | PList _ | PDict _ => Exc DBAPIError
  end.

(** A column declared [nullable=False] refuses NULL. *)
Definition not_null (v : pyval) : res pyval :=
  match v with
  | PNone => Exc DBAPIError
  | _ => Val v
  end.

(** *** Table access *)

Section Table.
Variable row : Type.
Variable key : row -> Z.

(** The key an INTEGER PRIMARY KEY column gets on insertion. *)
Definition next_id (t : list row) : Z :=
  fold_right (fun r m => Z.max (key r) m) 0 t + 1.

(** [Model.query.get(k)]. *)
Definition query_get (k : Z) (t : list row) : option row :=
  find (fun r => key r =? k) t.

(** An attribute assignment on the object [query.get(k)] returned. *)
Fixpoint modify (k : Z) (f : row -> row) (t : list row) : list row :=
  match t with
  | [] => []
  | r :: t' => if key r =? k then f r :: t' else r :: modify k f t'
  end.
End Table.

Definition set_stock (n : Z) (p : Product) : Product :=
  mkProduct (p_id p) (p_name p) (p_cp p) (p_sp p) (p_mrp p) n.

Definition set_prices (cp sp mrp : float) (p : Product) : Product :=
  mkProduct (p_id p) (p_name p) cp sp mrp (p_stock p).

Definition set_status (st : string) (o : Order) : Order :=
  mkOrder (o_id o) (o_retailer_id o) (o_date o) (o_grand_total o)
          (o_total_items o) st.

(** [p.stock += d] on the product whose key is [pid]. *)
Definition add_stock (pid d : Z) (ps : list Product) : list Product :=
  modify p_id pid (fun p => set_stock (p_stock p + d) p) ps.

Definition with_products (ps : list Product) (s : store) : store :=
  mkStore ps (retailers s) (orders s) (order_items s).

Definition with_orders (os : list Order) (s : store) : store :=
  mkStore (products s) (retailers s) os (order_items s).

Definition with_order_items (its : list OrderItem) (s : store) : store :=
  mkStore (products s) (retailers s) (orders s) its.

(** ** Responses *)

(** The [error] texts of the handlers, with what their f-strings insert. *)
Inductive error : Type :=
| Invalid_numeric_values
| Name_required
| Invalid_ID_stock_or_price_data
| Product_ID_not_found (product_id : Z)
| Shop_name_required
| Items_required
| Retailer_selection_is_required
| Invalid_retailer_ID_format
| Invalid_item_data
| Invalid_qty_for_product (pid : Z)
| Product_id_not_found (pid : Z)
| Insufficient_stock (name : pyval) (available : Z)
| Retailer_not_found
| Order_not_found
| Already_deleted
| Order_already_deleted.

(** The JSON body: [{'ok': True, ...}] or [{'ok': False, 'error': ...}]. *)
Inductive body : Type :=
| Ok
| Ok_product (id : Z) (name : pyval)
| Ok_retailer (id : Z) (shop_name : pyval)
| Ok_new_stock (new_stock : Z)
| Ok_order_id (order_id : Z)
| Error (e : error).

(** A response with its HTTP status, or the exception the handler did not
    catch (the framework answers 500). *)
Inductive response : Type :=
| Resp (status : Z) (b : body)
| Unhandled (e : pyexn).

Definition ok (b : body) : response := Resp 200 b.

(** ** Requests *)

(** [request.json] ([PNone] when the body is not JSON) and [request.form]. *)
Record request : Type := mkRequest {
  json : pyval;
  form : list (string * string)
}.

Definition json_request (v : pyval) : request := mkRequest v [].

(** A Python [dict] keyed by [int], in insertion order: assigning to a key
    that is present replaces its value where it stands. *)
Fixpoint dict_set {V : Type} (k : Z) (v : V) (d : list (Z * V)) : list (Z * V) :=
  match d with
  | [] => [(k, v)]
  | (k', v') :: d' =>
      if k' =? k then (k, v) :: d' else (k', v') :: dict_set k v d'
  end.

(** ** The handlers *)

Section Handlers.

Variable int_of_str : string -> option Z.
Variable float_of_str : string -> option float.

Abbreviation int_ := (py_int int_of_str).
Abbreviation float_ := (py_float float_of_str).

(** [request.json or request.form] *)
Definition json_or_form (rq : request) : pyval :=
  if truthy (json rq) then json rq
  else PDict (map (fun kv => (fst kv, PStr (snd kv))) (form rq)).

(** *** [api_add_product] *)

(** The body of the [try]: [cp], [sp], [mrp] and [stock]. *)
Definition add_product_fields (data : pyval) : res (float * float * float * Z) :=
  cp <- (v <- get data "cp" (PInt 0) ;; float_ v) ;;
  sp <- (v <- get data "sp" (PInt 0) ;; float_ v) ;;
  mrp <- (v <- get data "mrp" (PInt 0) ;; float_ v) ;;
  stock <- (v <- get data "stock" (PInt 0) ;; int_ v) ;;
  Val (cp, sp, mrp, stock).

(** [p = Product(...); db.session.add(p); db.session.commit()]: the row
    the INSERT leaves, or the exception it raises.  The values are bound in
    the order of the columns, and the constraint on [name] is checked
    when the statement runs. *)
Definition insert_product (name : pyval) (cp sp mrp : float) (stock : Z)
           (t : list Product) : res Product :=
  name <- store_text name ;;
  stock <- store_int stock ;;
  name <- not_null name ;;
  Val (mkProduct (next_id p_id t) name (store_real cp) (store_real sp)
                 (store_real mrp) stock).

Definition api_add_product (rq : request) (db : store) : response * store :=
  let data := json_or_form rq in
  match get data "name" PNone with
  | Exc e => (Unhandled e, db)
  | Val name =>
      match add_product_fields data with
      | Exc _ => (Resp 400 (Error Invalid_numeric_values), db)
      | Val (cp, sp, mrp, stock) =>
          if negb (truthy name) then (Resp 400 (Error Name_required), db)
          else
            match insert_product name cp sp mrp stock (products db) with
            | Exc e => (Unhandled e, db)
            | Val p =>
                (ok (Ok_product (p_id p) (p_name p)),
                 with_products (products db ++ [p]) db)
            end
      end
  end.

(** *** [api_update_product_stock] *)

(** The body of the [try]: [product_id], [stock_to_add], [new_cp],
    [new_sp] and [new_mrp]. *)
Definition update_product_stock_fields (data : pyval)
  : res (Z * Z * float * float * float) :=
  product_id <- (v <- get data "id" PNone ;; int_ v) ;;
  stock_to_add <- (v <- get data "stock_to_add" (PInt 0) ;; int_ v) ;;
  new_cp <- (v <- get data "cp" (PInt 0) ;; float_ v) ;;
  new_sp <- (v <- get data "sp" (PInt 0) ;; float_ v) ;;
  new_mrp <- (v <- get data "mrp" (PInt 0) ;; float_ v) ;;
  Val (product_id, stock_to_add, new_cp, new_sp, new_mrp).

Definition api_update_product_stock (rq : request) (db : store)
  : response * store :=
  let data := json rq in
  match update_product_stock_fields data with
  | Exc TypeError | Exc ValueError =>
      (Resp 400 (Error Invalid_ID_stock_or_price_data), db)
  | Exc e => (Unhandled e, db)
  | Val (product_id, stock_to_add, new_cp, new_sp, new_mrp) =>
      (* Product.query.get(product_id): the key is bound to the query *)
      if negb (int64 product_id) then (Unhandled OverflowError, db)
      else
        match query_get p_id product_id (products db) with
        | None => (Resp 404 (Error (Product_ID_not_found product_id)), db)
        | Some product =>
            let ps := modify p_id product_id
                             (set_prices (store_real new_cp)
                                         (store_real new_sp)
                                         (store_real new_mrp))
                             (products db) in
            let ps := if stock_to_add >? 0
                      then add_stock product_id stock_to_add ps
                      else ps in
            let new_stock := if stock_to_add >? 0
                             then p_stock product + stock_to_add
                             else p_stock product in
            (* db.session.commit(): the UPDATE binds the stock it was given *)
            if (stock_to_add >? 0) && negb (int64 new_stock)
            then (Unhandled OverflowError, db)
            else (ok (Ok_new_stock new_stock), with_products ps db)
        end
  end.

(** *** [api_add_retailer] *)

(** [r = Retailer(...); db.session.add(r); db.session.commit()] *)
Definition insert_retailer (shop_name address phone : pyval)
           (t : list Retailer) : res Retailer :=
  shop_name <- store_text shop_name ;;
  address <- store_text address ;;
  phone <- store_text phone ;;
  shop_name <- not_null shop_name ;;
  Val (mkRetailer (next_id r_id t) shop_name address phone).

Definition api_add_retailer (rq : request) (db : store) : response * store :=
  let data := json_or_form rq in
  match (shop_name <- get data "shop_name" PNone ;;
         address <- get data "address" (PStr "") ;;
         phone <- get data "phone" (PStr "") ;;
         Val (shop_name, address, phone)) with
  | Exc e => (Unhandled e, db)
  | Val (shop_name, address, phone) =>
      if negb (truthy shop_name)
      then (Resp 400 (Error Shop_name_required), db)
      else
        match insert_retailer shop_name address phone (retailers db) with
        | Exc e => (Unhandled e, db)
        | Val r =>
            (ok (Ok_retailer (r_id r) (r_shop_name r)),
             mkStore (products db) (retailers db ++ [r]) (orders db)
                     (order_items db))
        end
  end.

(** *** [api_place_order] *)

(** [if not data or 'items' not in data or not isinstance(data['items'], list)]:
    the items of the request, [None] for the 400 answer, or the exception
    that [in] and the subscript raise on a value that is no mapping. *)
Definition items_payload_of (data : pyval) : res (option (list pyval)) :=
  if negb (truthy data) then Val None
  else match data with
       | PDict d =>
           match lookup "items" d with
           | Some (PList l) => Val (Some l)
           | _ => Val None
           end
       | PList l =>
           if existsb (fun v => match v with
                                | PStr s => String.eqb s "items"
                                | _ => false
                                end) l
           then Exc TypeError else Val None
       | PStr s => if contains "items" s then Exc TypeError else Val None
       | _ => Exc TypeError
       end.

(** What the first loop accumulates: [grand_total], [total_items] and
    [prods].  A product object is held by [prods] as the row read by
    [Product.query.get], whose [name], [cp], [sp] and [mrp] no statement
    of the handler assigns. *)
Definition totals : Type := (float * Z * list (Z * (Product * Z)))%type.

(** The body of the [try] of the loop: [pid] and [qty]. *)
Definition item_fields (it : pyval) : res (Z * Z) :=
  pid <- (v <- get it "product_id" PNone ;; int_ v) ;;
  qty <- (v <- get it "qty" (PInt 0) ;; int_ v) ;;
  Val (pid, qty).

(** The validation loop; [inl] is the response of an early [return] (or
    the exception of the query or of the multiplication, which no [try]
    encloses). *)
Fixpoint validate_items (db : store) (items : list pyval) (acc : totals)
  : response + totals :=
  match items with
  | [] => inr acc
  | it :: rest =>
      let '(grand_total, total_items, prods) := acc in
      match item_fields it with
      | Exc _ => inl (Resp 400 (Error Invalid_item_data))
      | Val (pid, qty) =>
          if qty <=? 0
          then inl (Resp 400 (Error (Invalid_qty_for_product pid)))
          else if negb (int64 pid)
          then (* Product.query.get(pid): the key is bound to the query *)
            inl (Unhandled OverflowError)
          else
            match query_get p_id pid (products db) with
            | None => inl (Resp 404 (Error (Product_id_not_found pid)))
            | Some p =>
                if p_stock p <? qty
                then inl (Resp 409 (Error (Insufficient_stock
                                             (p_name p) (p_stock p))))
                else
                  let prods := dict_set pid (p, qty) prods in
                  match column_mul_int (p_sp p) qty with
                  | Exc e => inl (Unhandled e)
                  | Val x =>
                      validate_items db rest
                        (PrimFloat.add grand_total x, total_items + qty, prods)
                  end
            end
      end
  end.

(** The second loop, on the session [s]: [p.stock -= qty] on the product
    object and one [OrderItem] per entry of [prods]. *)
Fixpoint add_order_items (order_id : Z) (prods : list (Z * (Product * Z)))
                         (s : store) : res store :=
  match prods with
  | [] => Val s
  | (pid, (p, qty)) :: rest =>
      let s := with_products (add_stock (p_id p) (- qty) (products s)) s in
      item_total <- column_mul_int (p_sp p) qty ;;
      let oi := mkOrderItem (next_id oi_id (order_items s)) order_id
                            (p_id p) (p_name p) (p_cp p) (p_sp p) (p_mrp p)
                            qty (store_real item_total) in
      add_order_items order_id rest
        (with_order_items (order_items s ++ [oi]) s)
  end.

Definition api_place_order (now : Z) (rq : request) (db : store)
  : response * store :=
  let data := json rq in
  match items_payload_of data with
  | Exc e => (Unhandled e, db)
  | Val None => (Resp 400 (Error Items_required), db)
  | Val (Some items_payload) =>
      match get data "retailer_id" PNone with
      | Exc e => (Unhandled e, db)
      | Val retailer_id_str =>
          if negb (truthy retailer_id_str) || str_strip_is_empty retailer_id_str
          then (Resp 400 (Error Retailer_selection_is_required), db)
          else
            match int_ retailer_id_str with
            | Exc ValueError =>
                (Resp 400 (Error Invalid_retailer_ID_format), db)
            | Exc e => (Unhandled e, db)
            | Val retailer_id =>
                match validate_items db items_payload (0%float, 0, []) with
                | inl r => (r, db)
                | inr (grand_total, total_items, prods) =>
                    (* db.session.flush(): the INSERT binds the two ints *)
                    if negb (int64 retailer_id && int64 total_items)
                    then (Unhandled OverflowError, db)
                    else
                      let order := mkOrder (next_id o_id (orders db))
                                           retailer_id now
                                           (store_real grand_total)
                                           total_items "pending" in
                      let s := with_orders (orders db ++ [order]) db in
                      match add_order_items (o_id order) prods s with
                      | Exc e => (Unhandled e, db)
                      | Val s => (ok (Ok_order_id (o_id order)), s)
                      end
                end
            end
      end
  end.

(** *** [delete_order] and [deliver_order] *)

(** [for it in items: p = Product.query.get(it.product_id); if p: p.stock += it.qty] *)
Fixpoint restore_stock (items : list OrderItem) (ps : list Product)
  : list Product :=
  match items with
  | [] => ps
  | it :: rest =>
      match query_get p_id (oi_product_id it) ps with
      | Some p => restore_stock rest (add_stock (p_id p) (oi_qty it) ps)
      | None => restore_stock rest ps
      end
  end.

(** [OrderItem.query.filter_by(order_id=oid).all()] *)
Definition items_of_order (oid : Z) (s : store) : list OrderItem :=
  filter (fun it => oi_order_id it =? oid) (order_items s).

Definition delete_order (oid : Z) (db : store) : response * store :=
  match query_get o_id oid (orders db) with
  | None => (Resp 404 (Error Order_not_found), db)
  | Some order =>
      if String.eqb (o_status order) "deleted"
      then (Resp 400 (Error Already_deleted), db)
      else
        let items := items_of_order oid db in
        let s := with_products (restore_stock items (products db)) db in
        let s := with_orders
                   (modify o_id (o_id order) (set_status "deleted") (orders s)) s in
        (ok Ok, s)
  end.

Definition deliver_order (oid : Z) (db : store) : response * store :=
  match query_get o_id oid (orders db) with
  | None => (Resp 404 (Error Order_not_found), db)
  | Some order =>
      if String.eqb (o_status order) "deleted"
      then (Resp 400 (Error Order_already_deleted), db)
      else
        (ok Ok,
         with_orders
           (modify o_id (o_id order) (set_status "delivered") (orders db)) db)
  end.

End Handlers.

(** ** The listings *)

(** One element of the [items] array of an order view. *)
Record item_view : Type := mkItemView {
  iv_product_name : pyval;
  iv_qty : Z;
  iv_sp : float;
  iv_item_total : float
}.

(** One element of the array [api_orders] returns; [ov_date] stands for
    the ISO text of the date with its [Z] suffix. *)
Record order_view : Type := mkOrderView {
  ov_id : Z;
  ov_date : Z;
  ov_retailer_id : Z;
  ov_retailer : pyval;
  ov_grand_total : float;
  ov_total_items : Z;
  ov_status : string;
  ov_items : list item_view
}.

(** One line the CSV writer emits after the header line. *)
Record csv_row : Type := mkCsvRow {
  csv_order_id : Z;
  csv_date : Z;
  csv_retailer : pyval;
  csv_product : pyval;
  csv_qty : Z;
  csv_sp : float;
  csv_cp : float;
  csv_item_total : float;
  csv_grand_total : float;
  csv_status : string
}.

(** [order_by(Order.date.desc())]: rows of equal date keep the order of
    the table. *)
Fixpoint insert_by_date_desc (o : Order) (l : list Order) : list Order :=
  match l with
  | [] => [o]
  | x :: l' =>
      if o_date x <=? o_date o then o :: l
      else x :: insert_by_date_desc o l'
  end.

Definition order_by_date_desc (l : list Order) : list Order :=
  fold_right insert_by_date_desc [] l.

(** [Order.query.filter(Order.status != 'deleted').order_by(Order.date.desc()).all()] *)
Definition active_orders (db : store) : list Order :=
  order_by_date_desc
    (filter (fun o => negb (String.eqb (o_status o) "deleted")) (orders db)).

Definition view_of_item (it : OrderItem) : item_view :=
  mkItemView (oi_product_name it) (oi_qty it) (oi_sp it) (oi_item_total it).

Definition view_of_order (db : store) (o : Order) : order_view :=
  let retailer :=
    if negb (o_retailer_id o =? 0)
    then query_get r_id (o_retailer_id o) (retailers db) else None in
  let items := items_of_order (o_id o) db in
  mkOrderView (o_id o) (o_date o) (o_retailer_id o)
              (match retailer with Some r => r_shop_name r | None => PNone end)
              (o_grand_total o) (o_total_items o) (o_status o)
              (map view_of_item items).

Definition api_orders (db : store) : list order_view :=
  map (view_of_order db) (active_orders db).

(** The line [cw.writerow([...])] writes for an item of an order. *)
Definition csv_row_of (o : Order) (retailer : option Retailer) (it : OrderItem)
  : csv_row :=
  mkCsvRow (o_id o) (o_date o)
           (match retailer with Some r => r_shop_name r | None => PStr "" end)
           (oi_product_name it) (oi_qty it) (oi_sp it) (oi_cp it)
           (oi_item_total it) (o_grand_total o) (o_status o).

Definition rows_of_order (db : store) (o : Order) : list csv_row :=
  let retailer := query_get r_id (o_retailer_id o) (retailers db) in
  let items := items_of_order (o_id o) db in
  map (csv_row_of o retailer) items.

Definition export_csv (db : store) : list csv_row :=
  flat_map (rows_of_order db) (order_by_date_desc (orders db)).

(** *** The listings by name and the pages of one retailer *)

(** [order_by(column)], ascending, for the comparison [le] of the storage
    engine: rows that compare equal keep the order of the table. *)
Section Order_by.
Variable A : Type.
Variable le : A -> A -> bool.

Fixpoint insert_by (x : A) (l : list A) : list A :=
  match l with
  | [] => [x]
  | y :: l' => if le x y then x :: l else y :: insert_by x l'
  end.

Definition order_by (l : list A) : list A := fold_right insert_by [] l.
End Order_by.

Section Name_listings.

(** How the storage engine compares two values of a name column. *)
Variable text_le : pyval -> pyval -> bool.

(** [api_products]: an element of the array has the columns [id], [name],
    [cp], [sp], [mrp] and [stock], which are the fields of [Product]. *)
Definition api_products (db : store) : list Product :=
  order_by (fun a b => text_le (p_name a) (p_name b)) (products db).

(** [api_retailers]: an element has the fields of [Retailer]. *)
Definition api_retailers (db : store) : list Retailer :=
  order_by (fun a b => text_le (r_shop_name a) (r_shop_name b)) (retailers db).

End Name_listings.

(** The [retailer] object of [api_retailer_detail]. *)
Record retailer_view : Type := mkRetailerView {
  rv_id : Z;
  rv_shop_name : pyval;
  rv_address : pyval;
  rv_phone : pyval
}.

(** [api_retailer_detail]: the status and the body, which is the error or
    the retailer. *)
Definition api_retailer_detail (rid : Z) (db : store)
  : Z * (error + retailer_view) :=
  match query_get r_id rid (retailers db) with
  | None => (404, inl Retailer_not_found)
  | Some r =>
      (200, inr (mkRetailerView (r_id r) (r_shop_name r) (r_address r)
                                (r_phone r)))
  end.

(** One element of the [orders] array of [api_retailer_orders]. *)
Record retailer_order_view : Type := mkRetailerOrderView {
  rov_id : Z;
  rov_date : Z;
  rov_grand_total : float;
  rov_total_items : Z;
  rov_status : string;
  rov_items : list item_view
}.

Definition retailer_view_of_order (db : store) (o : Order)
  : retailer_order_view :=
  let items := items_of_order (o_id o) db in
  mkRetailerOrderView (o_id o) (o_date o) (o_grand_total o) (o_total_items o)
                      (o_status o) (map view_of_item items).

(** [Order.query.filter_by(retailer_id=rid).filter(Order.status != 'deleted')
    .order_by(Order.date.desc()).all()], each order with its items; the
    answer is always [{'ok': True, 'orders': out}]. *)
Definition api_retailer_orders (rid : Z) (db : store)
  : list retailer_order_view :=
  map (retailer_view_of_order db)
      (order_by_date_desc
         (filter (fun o => negb (String.eqb (o_status o) "deleted"))
                 (filter (fun o => o_retailer_id o =? rid) (orders db)))).

(** ** Sequences of requests *)

Inductive op : Type :=
| Add_product (rq : request)
| Update_product_stock (rq : request)
| Add_retailer (rq : request)
| Place_order (now : Z) (rq : request)
| Delete_order (oid : Z)
| Deliver_order (oid : Z).

Section Runs.

Variable int_of_str : string -> option Z.
Variable float_of_str : string -> option float.

Definition exec (o : op) (db : store) : response * store :=
  match o with
  | Add_product rq => api_add_product int_of_str float_of_str rq db
  | Update_product_stock rq =>
      api_update_product_stock int_of_str float_of_str rq db
  | Add_retailer rq => api_add_retailer rq db
  | Place_order now rq => api_place_order int_of_str now rq db
  | Delete_order oid => delete_order oid db
  | Deliver_order oid => deliver_order oid db
  end.

(** The store after the requests [ops], served one after the other. *)
Definition run (ops : list op) (db : store) : store :=
  fold_left (fun s o => snd (exec o s)) ops db.

(** A store the application can be in: the empty database after some
    sequence of requests. *)
Definition reachable (s : store) : Prop :=
  exists ops, run ops empty_store = s.

End Runs.

(** ** The built-in conversions on ASCII text

    [int(s)] and [float(s)] as CPython computes them for a [str] of ASCII
    characters: white space around the literal, a sign, decimal digits with
    single underscores between them, and for [float] a fraction, an
    exponent and the names [inf], [infinity] and [nan].  The theorems below
    do not depend on them; the examples and the concrete runs use them. *)

Module Ascii_builtins.

Definition digit_of (c : ascii) : option Z :=
  let n := Z.of_nat (nat_of_ascii c) in
  if (48 <=? n) && (n <=? 57) then Some (n - 48) else None.

Definition is_char (c : ascii) (x : string) : bool :=
  String.eqb (String c "") x.

Fixpoint strip_left (s : string) : string :=
  match s with
  | String c s' => if is_space c then strip_left s' else s
  | EmptyString => s
  end.

Fixpoint strip_right (s : string) : string :=
  match s with
  | EmptyString => ""
  | String c s' =>
      let t := strip_right s' in
      if is_space c && String.eqb t "" then "" else String c t
  end.

(** A run [digit (_? digit)*], possibly empty: its value, the number of
    its digits and what follows it; [None] for a misplaced underscore. *)
Fixpoint digit_run (s : string) (acc n : Z) (prev : bool)
  : option (Z * Z * string) :=
  match s with
  | EmptyString => Some (acc, n, s)
  | String c s' =>
      match digit_of c with
      | Some d => digit_run s' (10 * acc + d) (n + 1) true
      | None =>
          if is_char c "_" then
            match s' with
            | String c' _ =>
                match digit_of c' with
                | Some _ => if prev then digit_run s' acc n false else None
                | None => None
                end
            | EmptyString => None
            end
          else Some (acc, n, s)
      end
  end.

(** The sign of a literal and what follows it. *)
Definition signed (s : string) : bool * string :=
  match s with
  | String c s' =>
      if is_char c "-" then (true, s')
      else if is_char c "+" then (false, s')
      else (false, s)
  | EmptyString => (false, s)
  end.

Definition int_of_str (s : string) : option Z :=
  let (neg, body) := signed (strip_left s) in
  match digit_run body 0 0 false with
  | Some (v, n, rest) =>
      if (0 <? n) && all_space rest then Some (if neg then - v else v)
      else None
  | None => None
  end.

Definition lower (c : ascii) : ascii :=
  let n := nat_of_ascii c in
  if (Nat.leb 65 n && Nat.leb n 90)%bool then ascii_of_nat (n + 32) else c.

Fixpoint lower_str (s : string) : string :=
  match s with
  | EmptyString => ""
  | String c s' => String (lower c) (lower_str s')
  end.

(** The binary64 nearest to [m * 10^e] for [0 < m], ties to even: the
    quotient is cut after more bits than a binary64 keeps, with one more
    bit that records whether anything was cut off. *)
Definition nearest_float (m e : Z) : float :=
  let n := if 0 <=? e then m * 10 ^ e else m in
  let d := if 0 <=? e then 1 else 10 ^ (- e) in
  let k := Z.max 0 (66 + Z.log2 d - Z.log2 n) in
  let q := (n * 2 ^ k) / d in
  let sticky := if (n * 2 ^ k) mod d =? 0 then 0 else 1 in
  SF2Prim (binary_normalize prec emax (2 * q + sticky) (- k - 1) false).

Definition exponent_of (s : string) : option (Z * string) :=
  match s with
  | String c s' =>
      if is_char (lower c) "e" then
        let (neg, digits) := signed s' in
        match digit_run digits 0 0 false with
        | Some (v, n, rest) =>
            if 0 <? n then Some (if neg then - v else v, rest) else None
        | None => None
        end
      else Some (0, s)
  | EmptyString => Some (0, s)
  end.

Definition float_of_str (s : string) : option float :=
  let (neg, body) := signed (strip_left s) in
  let sign := fun x : float => if neg then PrimFloat.opp x else x in
  let name := lower_str (strip_right body) in
  if String.eqb name "inf" || String.eqb name "infinity"
  then Some (sign PrimFloat.infinity)
  else if String.eqb name "nan" then Some PrimFloat.nan
  else
    match digit_run body 0 0 false with
    | None => None
    | Some (i, ni, rest) =>
        let fraction :=
          match rest with
          | String c rest' =>
              if is_char c "." then digit_run rest' 0 0 false
              else Some (0, 0, rest)
          | EmptyString => Some (0, 0, rest)
          end in
        match fraction with
        | None => None
        | Some (f, nf, rest) =>
            if ni + nf =? 0 then None
            else
              match exponent_of rest with
              | None => None
              | Some (e, rest) =>
                  if all_space rest then
                    let m := i * 10 ^ nf + f in
                    Some (sign (if m =? 0 then 0%float
                                else nearest_float m (e - nf)))
                  else None
              end
        end
    end.

End Ascii_builtins.

(** ** Vocabulary of the properties *)

(** A sequence of stock changes, each on the product of the given key. *)
Definition adjust_all (l : list (Z * Z)) (ps : list Product) : list Product :=
  fold_left (fun ps e => add_stock (fst e) (snd e) ps) l ps.

(** A response that reports success: the handlers answer 200 exactly with
    an ['ok': True] body. *)
Definition is_success (r : response) : bool :=
  match r with
  | Resp status _ => status =? 200
  | Unhandled _ => false
  end.

(** What the validation loop establishes of an entry of [prods]: the
    product is the row of that key, and the quantity is positive and within
    its stock. *)
Definition held (ps : list Product) (e : Z * (Product * Z)) : Prop :=
  query_get p_id (fst e) ps = Some (fst (snd e)) /\
  0 < snd (snd e) <= p_stock (fst (snd e)).

(** The stock the second loop takes from the products, and the stock a
    deletion gives back, entry by entry. *)
Definition taken (prods : list (Z * (Product * Z))) : list (Z * Z) :=
  map (fun e => (p_id (fst (snd e)), - snd (snd e))) prods.

Definition given_back (prods : list (Z * (Product * Z))) : list (Z * Z) :=
  map (fun e => (p_id (fst (snd e)), snd (snd e))) prods.

(** The [OrderItem] the second loop adds for an entry of [prods]. *)
Definition item_for (order_id : Z) (e : Z * (Product * Z)) (it : OrderItem)
  : Prop :=
  let p := fst (snd e) in
  let qty := snd (snd e) in
  oi_order_id it = order_id /\ oi_product_id it = p_id p /\
  oi_product_name it = p_name p /\
  oi_cp it = p_cp p /\ oi_sp it = p_sp p /\ oi_mrp it = p_mrp p /\
  oi_qty it = qty /\ float_mul_int (p_sp p) qty = Val (oi_item_total it).

(** Every [OrderItem] belongs to an order that was inserted before it. *)
Definition items_have_orders (s : store) : Prop :=
  Forall (fun it => oi_order_id it < next_id o_id (orders s)) (order_items s).

(** No product has a negative stock, and no item a negative quantity. *)
Definition stock_nonneg (s : store) : Prop :=
  Forall (fun p => 0 <= p_stock p) (products s) /\
  Forall (fun it => 0 <= oi_qty it) (order_items s).

(** The quantity an add-product request submits, when it can be read. *)
Definition submitted_stock (int_of_str : string -> option Z) (rq : request)
  : res Z :=
  v <- get (json_or_form rq) "stock" (PInt 0) ;; py_int int_of_str v.

(** The add-product requests of a run submit no negative stock. *)
Definition submits_nonneg_stock (int_of_str : string -> option Z) (o : op)
  : Prop :=
  match o with
  | Add_product rq =>
      match submitted_stock int_of_str rq with
      | Val stock => 0 <= stock
      | Exc _ => True
      end
  | _ => True
  end.

(** The sums the totals of an order are compared with. *)
Definition sum_qty (items : list OrderItem) : Z :=
  fold_left (fun a it => a + oi_qty it) items 0.

Definition sum_item_total (items : list OrderItem) : float :=
  fold_left (fun a it => PrimFloat.add a (oi_item_total it)) items 0%float.



(** An order row after a delivery of the order [oid]: as it was, or the
    row of that key with only its status set. *)
Definition delivered_or_same (oid : Z) (before after : Order) : Prop :=
  after = before \/
  (o_id before = oid /\ after = set_status "delivered" before).

(** An order the active listing shows. *)
Definition is_active (o : Order) : bool :=
  negb (String.eqb (o_status o) "deleted").

(** Later first. *)
Definition later_first (a b : Order) : Prop := o_date b <= o_date a.

(** The lines [(product id, quantity)] a list of items asks for, in the
    order of the list, and their product ids. *)
Definition requested_lines (int_of_str : string -> option Z)
           (items : list pyval) : list (Z * Z) :=
  flat_map (fun it => match item_fields int_of_str it with
                      | Val line => [line]
                      | Exc _ => []
                      end) items.

Definition requested_ids (int_of_str : string -> option Z) (items : list pyval)
  : list Z :=
  map fst (requested_lines int_of_str items).

(** The sum of the quantities a list of items asks for. *)
Definition requested_total (int_of_str : string -> option Z)
           (items : list pyval) : Z :=
  fold_right (fun l a => snd l + a) 0 (requested_lines int_of_str items).

(** The sum of the changes a list of stock changes makes to one key. *)
Definition change_of (k : Z) (l : list (Z * Z)) : Z :=
  fold_right (fun e a => if fst e =? k then snd e + a else a) 0 l.

(** [p.sp * qty] for an entry of [prods]. *)
Definition line_total (e : Z * (Product * Z)) : float :=
  match float_mul_int (p_sp (fst (snd e))) (snd (snd e)) with
  | Val x => x
  | Exc _ => 0%float
  end.

(** A line the validation loop lets through: its fields can be read, the
    quantity is positive, the product exists and its stock covers the
    quantity. *)
Definition valid_line (int_of_str : string -> option Z) (db : store)
           (it : pyval) : Prop :=
  exists pid qty p,
    item_fields int_of_str it = Val (pid, qty) /\ 0 < qty /\
    query_get p_id pid (products db) = Some p /\ qty <= p_stock p.

(** The body of a request has no [items] entry, or one that is no list. *)
Definition items_list_missing (d : list (string * pyval)) : bool :=
  match lookup "items" d with
  | Some (PList _) => false
  | _ => true
  end.

(** The columns of an order that no handler assigns after the insertion:
    all but the status. *)
Definition order_core (o : Order) : Z * Z * Z * float * Z :=
  (o_id o, o_retailer_id o, o_date o, o_grand_total o, o_total_items o).

(** The key and the name of a product. *)
Definition product_core (p : Product) : Z * pyval := (p_id p, p_name p).

(** The primary keys of each table are pairwise distinct. *)
Definition unique_keys (s : store) : Prop :=
  NoDup (map p_id (products s)) /\ NoDup (map r_id (retailers s)) /\
  NoDup (map o_id (orders s)) /\ NoDup (map oi_id (order_items s)).



(** What an item of an order records of the product [p] it was taken
    from: the key, the name and the prices, a quantity the stock covered,
    and the price of the quantity. *)
Definition snapshot_of (p : Product) (it : OrderItem) : Prop :=
  oi_product_id it = p_id p /\ oi_product_name it = p_name p /\
  oi_cp it = p_cp p /\ oi_sp it = p_sp p /\ oi_mrp it = p_mrp p /\
  0 < oi_qty it <= p_stock p /\
  float_mul_int (p_sp p) (oi_qty it) = Val (oi_item_total it).

(** The order of the bytes of two texts, any other value first: the
    comparison the concrete runs list names with. *)
Definition binary_text_le (a b : pyval) : bool :=
  match a, b with
  | PStr s, PStr t => String.leb s t
  | PStr _, _ => false
  | _, _ => true
  end.

(** The store [s] keeps every row of [db], in place: the products with
    their keys and names, the retailers and the order items entirely, the
    orders in all but their status; what [s] has more comes after. *)
Definition extends (db s : store) : Prop :=
  (exists ps, map product_core (products s)
              = map product_core (products db) ++ ps) /\
  (exists rs, retailers s = retailers db ++ rs) /\
  (exists os, map order_core (orders s) = map order_core (orders db) ++ os) /\
  (exists its, order_items s = order_items db ++ its).

(** What the validation loop answers at one line, read against the
    products of the store: the response of the [return] the line runs
    into (or the exception of its query or of its multiplication), [None]
    when the loop goes on to the next line. *)
Definition line_refusal (int_of_str : string -> option Z) (db : store)
           (it : pyval) : option response :=
  match item_fields int_of_str it with
  | Exc _ => Some (Resp 400 (Error Invalid_item_data))
  | Val (pid, qty) =>
      if qty <=? 0 then Some (Resp 400 (Error (Invalid_qty_for_product pid)))
      else if negb (int64 pid) then Some (Unhandled OverflowError)
      else
        match query_get p_id pid (products db) with
        | None => Some (Resp 404 (Error (Product_id_not_found pid)))
        | Some p =>
            if p_stock p <? qty
            then Some (Resp 409 (Error (Insufficient_stock (p_name p)
                                                          (p_stock p))))
            else match column_mul_int (p_sp p) qty with
                 | Exc e => Some (Unhandled e)
                 | Val _ => None
                 end
        end
  end.

(** [d.get(k, default)] for the entries [d] of a JSON object. *)
Definition field (d : list (string * pyval)) (k : string) (default : pyval)
  : pyval :=
  match lookup k d with
  | Some v => v
  | None => default
  end.

(** What a text column holds when its text is given here: NULL or a
    text. *)
Definition null_or_text (v : pyval) : bool :=
  match v with
  | PNone | PStr _ => true
  | _ => false
  end.

(** The request body names its items and a retailer the handler accepts. *)
Definition well_formed_order (int_of_str : string -> option Z) (rq : request)
           (items : list pyval) (retailer_id : Z) : Prop :=
  items_payload_of (json rq) = Val (Some items) /\
  exists v, get (json rq) "retailer_id" PNone = Val v /\
            truthy v = true /\ str_strip_is_empty v = false /\
            py_int int_of_str v = Val retailer_id.

(** ** A concrete run

    The scenario of the specification: one product, one retailer, and
    orders placed on them, with the conversions of [Ascii_builtins]. *)

Module Scenario.

Definition place_order : Z -> request -> store -> response * store :=
  api_place_order Ascii_builtins.int_of_str.

Definition serve : list op -> store -> store :=
  run Ascii_builtins.int_of_str Ascii_builtins.float_of_str.

Definition soap : request :=
  json_request (PDict [("name", PStr "Soap"); ("cp", PInt 10); ("sp", PInt 15);
                       ("mrp", PInt 20); ("stock", PInt 100)]).

Definition abc_store : request :=
  json_request (PDict [("shop_name", PStr "ABC Store")]).

(** [{retailer_id, items: [{product_id, qty}, ...]}] *)
Definition order_request (retailer_id : Z) (lines : list (Z * Z)) : request :=
  json_request
    (PDict [("retailer_id", PInt retailer_id);
            ("items",
             PList (map (fun l => PDict [("product_id", PInt (fst l));
                                         ("qty", PInt (snd l))]) lines))]).

(** The store with the product (stock 100) and the retailer. *)
Definition stocked : store :=
  serve [Add_product soap; Add_retailer abc_store] empty_store.

(** [stocked] after an order of 10 pieces of soap. *)
Definition ordered : store :=
  serve [Place_order 5 (order_request 1 [(1, 10)])] stocked.

End Scenario.

(** Closes a branch of a handler that answers with an error when the
    response at hand is known to be a success. *)
Ltac failed_branch :=
  let H := fresh in
  intros H; injection H as <- <-; simpl in *; discriminate.

(** * Properties *)

(** ** The storage engine *)

(** [float] has one NaN: what a REAL column keeps of a [float] is that
    [float], its NaN read as NULL. *)
Lemma store_real_id (x : float) : store_real x = x.
Proof.
  unfold store_real, null_real.
  destruct (PrimFloat.is_nan x) eqn:E; [|reflexivity].
  symmetry. apply Prim2SF_inj.
  unfold PrimFloat.is_nan in E. rewrite eqb_spec in E.
  destruct (Prim2SF x) as [s|s| |s m e] eqn:P; simpl in *; try reflexivity.
  - destruct s; discriminate.
  - destruct s; discriminate.
  - unfold SFeqb, SFcompare in E.
    destruct s; rewrite Z.compare_refl, Pos.compare_cont_refl in E;
      discriminate.
Qed.

Lemma column_mul_int_val (x y : float) (n : Z) :
  column_mul_int x n = Val y -> float_mul_int x n = Val y.
Proof.
  unfold column_mul_int, read_real.
  destruct (PrimFloat.is_nan x); [discriminate|auto].
Qed.

Lemma insert_product_val (name : pyval) (cp sp mrp : float) (stock : Z)
      (t : list Product) (p : Product) :
  insert_product name cp sp mrp stock t = Val p ->
  exists text, store_text name = Val text /\ not_null text = Val text /\
               int64 stock = true /\
               p = mkProduct (next_id p_id t) text cp sp mrp stock.
Proof.
  unfold insert_product, store_int.
  destruct (store_text name) as [text|e]; simpl; [|discriminate].
  destruct (int64 stock); simpl; [|discriminate].
  destruct (not_null text) as [text'|e] eqn:E; simpl; [|discriminate].
  rewrite !store_real_id. intros [= <-].
  assert (text' = text) by (destruct text; simpl in E; congruence).
  subst text'. eauto.
Qed.

Lemma insert_retailer_val (shop_name address phone : pyval)
      (t : list Retailer) (r : Retailer) :
  insert_retailer shop_name address phone t = Val r ->
  exists shop addr ph,
    store_text shop_name = Val shop /\ store_text address = Val addr /\
    store_text phone = Val ph /\ not_null shop = Val shop /\
    r = mkRetailer (next_id r_id t) shop addr ph.
Proof.
  unfold insert_retailer.
  destruct (store_text shop_name) as [shop|e]; simpl; [|discriminate].
  destruct (store_text address) as [addr|e]; simpl; [|discriminate].
  destruct (store_text phone) as [ph|e]; simpl; [|discriminate].
  destruct (not_null shop) as [shop'|e] eqn:E; simpl; [|discriminate].
  intros [= <-].
  assert (shop' = shop) by (destruct shop; simpl in E; congruence).
  subst shop'. exists shop, addr, ph. auto.
Qed.

(** ** Tables *)

Section Table_facts.
Variable row : Type.
Variable key : row -> Z.

Lemma query_get_some (k : Z) (t : list row) (r : row) :
  query_get key k t = Some r -> key r = k /\ In r t.
Proof.
  unfold query_get. intros H. apply find_some in H.
  destruct H as [Hin Hk]. apply Z.eqb_eq in Hk. auto.
Qed.

Lemma query_get_in_keys (k : Z) (t : list row) :
  In k (map key t) -> exists r, query_get key k t = Some r.
Proof.
  unfold query_get. induction t as [|x t IH]; simpl; [tauto|].
  intros [Hx | Hin].
  - rewrite Hx, Z.eqb_refl. eauto.
  - destruct (key x =? k); eauto.
Qed.

Lemma next_id_above (t : list row) :
  Forall (fun r => key r < next_id key t) t.
Proof.
  unfold next_id. induction t as [|x t IH]; constructor; simpl.
  - lia.
  - eapply Forall_impl; [|exact IH]. simpl. intros. lia.
Qed.

Lemma next_id_insert (t : list row) (r : row) :
  key r = next_id key t -> next_id key (t ++ [r]) = next_id key t + 1.
Proof.
  unfold next_id. intros Hr.
  assert (P : 0 <= fold_right (fun r m => Z.max (key r) m) 0 t).
  { clear Hr. induction t; simpl; lia. }
  assert (Q : forall u,
            fold_right (fun r m => Z.max (key r) m) 0 (u ++ [r])
            = Z.max (fold_right (fun r m => Z.max (key r) m) 0 u)
                    (Z.max (key r) 0)).
  { induction u as [|x u IH]; simpl; [lia|rewrite IH; lia]. }
  rewrite Q. lia.
Qed.

Section Modify.
Variable f : row -> row.
Hypothesis f_key : forall r, key (f r) = key r.

Lemma modify_keys (k : Z) (t : list row) :
  map key (modify key k f t) = map key t.
Proof.
  induction t as [|x t IH]; simpl; [reflexivity|].
  destruct (key x =? k); simpl; [rewrite f_key|rewrite IH]; reflexivity.
Qed.

Lemma next_id_modify (k : Z) (t : list row) :
  next_id key (modify key k f t) = next_id key t.
Proof.
  unfold next_id. f_equal.
  induction t as [|x t IH]; simpl; [reflexivity|].
  destruct (key x =? k); simpl; [rewrite f_key|rewrite IH]; reflexivity.
Qed.

Lemma query_get_modify_other (k k' : Z) (t : list row) :
  k <> k' -> query_get key k (modify key k' f t) = query_get key k t.
Proof.
  intros Hne. unfold query_get.
  induction t as [|x t IH]; simpl; [reflexivity|].
  destruct (key x =? k') eqn:E; simpl.
  - rewrite f_key. apply Z.eqb_eq in E.
    destruct (key x =? k) eqn:E'; [apply Z.eqb_eq in E'; lia|reflexivity].
  - destruct (key x =? k); [reflexivity|exact IH].
Qed.

Lemma query_get_modify_same (k : Z) (t : list row) (r : row) :
  query_get key k t = Some r ->
  query_get key k (modify key k f t) = Some (f r).
Proof.
  unfold query_get.
  induction t as [|x t IH]; simpl; [discriminate|].
  destruct (key x =? k) eqn:E; simpl.
  - intros [= ->]. rewrite f_key, E. reflexivity.
  - rewrite E. exact IH.
Qed.

Lemma Forall_modify (P : row -> Prop) (k : Z) (t : list row) :
  Forall P t ->
  (forall r, query_get key k t = Some r -> P (f r)) ->
  Forall P (modify key k f t).
Proof.
  unfold query_get.
  induction t as [|x t IH]; simpl; intros HF Hf; [constructor|].
  inversion HF; subst.
  destruct (key x =? k) eqn:E.
  - constructor; auto.
  - constructor; auto.
Qed.
End Modify.

End Table_facts.

(** ** Stock arithmetic *)

Lemma add_stock_keys (k d : Z) (ps : list Product) :
  map p_id (add_stock k d ps) = map p_id ps.
Proof. unfold add_stock. apply modify_keys. reflexivity. Qed.

Lemma add_stock_comm (a x b y : Z) (ps : list Product) :
  add_stock a x (add_stock b y ps) = add_stock b y (add_stock a x ps).
Proof.
  unfold add_stock. induction ps as [|p ps IH]; simpl; [reflexivity|].
  destruct (p_id p =? b) eqn:Eb, (p_id p =? a) eqn:Ea; simpl;
    rewrite ?Ea, ?Eb; simpl; rewrite ?Ea, ?Eb; try reflexivity.
  - unfold set_stock; simpl. do 2 f_equal. lia.
  - rewrite IH. reflexivity.
Qed.

Lemma add_stock_cancel (k d : Z) (ps : list Product) :
  add_stock k d (add_stock k (- d) ps) = ps.
Proof.
  unfold add_stock. induction ps as [|p ps IH]; simpl; [reflexivity|].
  destruct (p_id p =? k) eqn:E; simpl; rewrite E.
  - destruct p; unfold set_stock; simpl. do 2 f_equal. lia.
  - rewrite IH. reflexivity.
Qed.

Lemma adjust_all_keys (l : list (Z * Z)) (ps : list Product) :
  map p_id (adjust_all l ps) = map p_id ps.
Proof.
  revert ps. induction l as [|e l IH]; simpl; intros ps; [reflexivity|].
  unfold adjust_all in *. simpl. rewrite IH. apply add_stock_keys.
Qed.

Lemma adjust_all_add_stock (l : list (Z * Z)) (k d : Z) (ps : list Product) :
  adjust_all l (add_stock k d ps) = add_stock k d (adjust_all l ps).
Proof.
  revert ps. unfold adjust_all.
  induction l as [|e l IH]; simpl; intros ps; [reflexivity|].
  rewrite add_stock_comm. apply IH.
Qed.

Lemma adjust_all_undo (l : list (Z * Z)) (ps : list Product) :
  adjust_all l (adjust_all (map (fun e => (fst e, - snd e)) l) ps) = ps.
Proof.
  revert ps. induction l as [|[k d] l IH]; intros ps; [reflexivity|].
  change (adjust_all l
            (add_stock k d
               (adjust_all (map (fun e => (fst e, - snd e)) l)
                           (add_stock k (- d) ps))) = ps).
  rewrite <- adjust_all_add_stock, IH.
  apply add_stock_cancel.
Qed.

(** ** The order transaction *)

Lemma dict_set_keys {V : Type} (k : Z) (v : V) (d : list (Z * V)) :
  map fst (dict_set k v d) =
  if existsb (Z.eqb k) (map fst d) then map fst d else map fst d ++ [k].
Proof.
  induction d as [|[k' v'] d IH]; simpl; [reflexivity|].
  rewrite (Z.eqb_sym k k').
  destruct (k' =? k) eqn:E; simpl.
  - apply Z.eqb_eq in E. subst. reflexivity.
  - rewrite IH. destruct (existsb (Z.eqb k) (map fst d)); reflexivity.
Qed.

Lemma dict_set_NoDup {V : Type} (k : Z) (v : V) (d : list (Z * V)) :
  NoDup (map fst d) -> NoDup (map fst (dict_set k v d)).
Proof.
  intros H. rewrite dict_set_keys.
  destruct (existsb (Z.eqb k) (map fst d)) eqn:E; [exact H|].
  apply NoDup_app; [exact H|repeat constructor; simpl; tauto|].
  intros x Hx [Hk|[]]. subst x.
  assert (existsb (Z.eqb k) (map fst d) = true); [|congruence].
  apply existsb_exists. exists k. split; [exact Hx|apply Z.eqb_refl].
Qed.

Lemma dict_set_Forall {V : Type} (P : Z * V -> Prop) (k : Z) (v : V)
      (d : list (Z * V)) :
  Forall P d -> P (k, v) -> Forall P (dict_set k v d).
Proof.
  intros H Hk. induction H as [|[k' v'] d Hx H IH]; simpl.
  - repeat constructor. exact Hk.
  - destruct (k' =? k); constructor; auto.
Qed.

Section Transaction_facts.

Variable int_of_str : string -> option Z.

Lemma validate_items_failure (db : store) (items : list pyval) (acc : totals)
      (r : response) :
  validate_items int_of_str db items acc = inl r -> is_success r = false.
Proof.
  revert acc. induction items as [|it items IH]; intros [[g t] prods]; simpl.
  - discriminate.
  - destruct (item_fields int_of_str it) as [[pid qty]|e];
      [|intros [= <-]; reflexivity].
    destruct (qty <=? 0); [intros [= <-]; reflexivity|].
    destruct (negb (int64 pid)); [intros [= <-]; reflexivity|].
    destruct (query_get p_id pid (products db)) as [p|];
      [|intros [= <-]; reflexivity].
    destruct (p_stock p <? qty); [intros [= <-]; reflexivity|].
    destruct (column_mul_int (p_sp p) qty) as [x|e];
      [apply IH|intros [= <-]; reflexivity].
Qed.

Lemma validate_items_held (db : store) (items : list pyval)
      (g g' : float) (t t' : Z) (prods prods' : list (Z * (Product * Z))) :
  validate_items int_of_str db items (g, t, prods) = inr (g', t', prods') ->
  NoDup (map fst prods) -> Forall (held (products db)) prods ->
  NoDup (map fst prods') /\ Forall (held (products db)) prods'.
Proof.
  revert g t prods. induction items as [|it items IH]; intros g t prods; simpl.
  - intros [= <- <- <-]. auto.
  - destruct (item_fields int_of_str it) as [[pid qty]|e]; [|discriminate].
    destruct (qty <=? 0) eqn:Eq; [discriminate|].
    destruct (negb (int64 pid)); [discriminate|].
    destruct (query_get p_id pid (products db)) as [p|] eqn:Ep; [|discriminate].
    destruct (p_stock p <? qty) eqn:Es; [discriminate|].
    destruct (column_mul_int (p_sp p) qty) as [x|e]; [|discriminate].
    intros H Hnd Hheld. apply IH in H; auto.
    + apply dict_set_NoDup. exact Hnd.
    + apply dict_set_Forall; [exact Hheld|].
      unfold held; simpl. split; [exact Ep|]. lia.
Qed.

End Transaction_facts.

Lemma add_order_items_spec (order_id : Z) (prods : list (Z * (Product * Z)))
      (s s' : store) :
  add_order_items order_id prods s = Val s' ->
  retailers s' = retailers s /\ orders s' = orders s /\
  products s' = adjust_all (taken prods) (products s) /\
  exists new, order_items s' = order_items s ++ new /\
              Forall2 (item_for order_id) prods new.
Proof.
  revert s. induction prods as [|[pid [p qty]] prods IH]; intros s; simpl.
  - intros [= <-]. repeat split; auto. exists []. rewrite app_nil_r. auto.
  - destruct (column_mul_int (p_sp p) qty) as [x|e] eqn:Ex; simpl; [|discriminate].
    intros H. apply IH in H. simpl in H.
    destruct H as (Hr & Ho & Hp & new & Hi & Hnew).
    repeat split; auto.
    eexists (_ :: new). rewrite Hi, <- app_assoc. split; [reflexivity|].
    constructor; [|exact Hnew].
    unfold item_for; simpl. rewrite store_real_id.
    apply column_mul_int_val in Ex. repeat split; auto.
Qed.

(** Deleting gives back what the items took, when their products exist. *)
Lemma restore_stock_given_back (order_id : Z) (prods : list (Z * (Product * Z)))
      (new : list OrderItem) (ps : list Product) :
  Forall2 (item_for order_id) prods new ->
  Forall (fun e => In (p_id (fst (snd e))) (map p_id ps)) prods ->
  restore_stock new ps = adjust_all (given_back prods) ps.
Proof.
  intros H. revert ps.
  induction H as [|[pid [p qty]] it prods new Hit H IH]; intros ps Hin; simpl.
  - reflexivity.
  - inversion Hin as [|? ? Hp Hrest]; subst. simpl in Hp.
    destruct Hit as (_ & Hpid & _ & _ & _ & _ & Hqty & _). simpl in *.
    rewrite Hpid, Hqty.
    destruct (query_get_in_keys p_id _ _ Hp) as [p' Hp'].
    rewrite Hp'. apply query_get_some in Hp'. destruct Hp' as [-> _].
    apply IH. eapply Forall_impl; [|exact Hrest].
    simpl. intros e He. rewrite add_stock_keys. exact He.
Qed.

Lemma query_get_fresh {row : Type} (key : row -> Z) (k : Z) (t : list row)
      (r : row) :
  Forall (fun x => key x < k) t -> key r = k ->
  query_get key k (t ++ [r]) = Some r.
Proof.
  unfold query_get. intros H Hr.
  induction H as [|x t Hx H IH]; simpl.
  - rewrite Hr, Z.eqb_refl. reflexivity.
  - destruct (key x =? k) eqn:E; [apply Z.eqb_eq in E; lia|exact IH].
Qed.

Lemma items_of_fresh_order (s : store) (new : list OrderItem) :
  items_have_orders s ->
  Forall (fun it => oi_order_id it = next_id o_id (orders s)) new ->
  filter (fun it => oi_order_id it =? next_id o_id (orders s))
         (order_items s ++ new) = new.
Proof.
  unfold items_have_orders. intros Hold Hnew. rewrite filter_app.
  replace (filter _ (order_items s)) with (@nil OrderItem).
  - simpl. induction Hnew as [|it new Hit Hnew IH]; simpl; [reflexivity|].
    rewrite Hit, Z.eqb_refl, IH. reflexivity.
  - symmetry. induction Hold as [|it l Hit Hold IH]; simpl; [reflexivity|].
    destruct (oi_order_id it =? next_id o_id (orders s)) eqn:E;
      [apply Z.eqb_eq in E; lia|exact IH].
Qed.

Section Place_order_facts.

Variable int_of_str : string -> option Z.

(** A successful placement went through both loops. *)
Lemma api_place_order_success (now : Z) (rq : request) (db : store)
      (r : response) (s1 : store) :
  api_place_order int_of_str now rq db = (r, s1) ->
  is_success r = true ->
  exists items retailer_id grand_total total_items prods,
    items_payload_of (json rq) = Val (Some items) /\
    validate_items int_of_str db items (0%float, 0, [])
    = inr (grand_total, total_items, prods) /\
    r = ok (Ok_order_id (next_id o_id (orders db))) /\
    add_order_items (next_id o_id (orders db)) prods
      (with_orders
         (orders db ++ [mkOrder (next_id o_id (orders db)) retailer_id now
                                grand_total total_items "pending"]) db)
    = Val s1.
Proof.
  unfold api_place_order. intros H Hs. revert H.
  destruct (items_payload_of (json rq)) as [[items|]|e]; try failed_branch.
  destruct (get (json rq) "retailer_id" PNone) as [v|e]; try failed_branch.
  destruct (negb (truthy v) || str_strip_is_empty v); try failed_branch.
  destruct (py_int int_of_str v) as [retailer_id|[]]; try failed_branch.
  destruct (validate_items int_of_str db items (0%float, 0, []))
    as [r'|[[g t] prods]] eqn:Ev.
  - intros [= <- <-]. apply validate_items_failure in Ev. congruence.
  - destruct (int64 retailer_id && int64 t); simpl; try failed_branch.
    rewrite store_real_id.
    destruct (add_order_items _ prods _) as [s|e] eqn:Ea; try failed_branch.
    intros [= <- <-]. exists items, retailer_id, g, t, prods. auto.
Qed.

(** A placement that does not succeed leaves the store as it was. *)
Lemma api_place_order_failure (now : Z) (rq : request) (db : store) :
  is_success (fst (api_place_order int_of_str now rq db)) = false ->
  snd (api_place_order int_of_str now rq db) = db.
Proof.
  unfold api_place_order.
  destruct (items_payload_of (json rq)) as [[items|]|e]; try reflexivity.
  destruct (get (json rq) "retailer_id" PNone) as [v|e]; try reflexivity.
  destruct (negb (truthy v) || str_strip_is_empty v); try reflexivity.
  destruct (py_int int_of_str v) as [retailer_id|[]]; try reflexivity.
  destruct (validate_items int_of_str db items (0%float, 0, []))
    as [r'|[[g t] prods]]; try reflexivity.
  destruct (int64 retailer_id && int64 t); simpl; try reflexivity.
  destruct (add_order_items _ prods _) as [s|e]; try reflexivity.
  simpl. discriminate.
Qed.

End Place_order_facts.

(** ** Invariants of the store *)

Lemma add_stock_nonneg (k d : Z) (ps : list Product) :
  (forall p, query_get p_id k ps = Some p -> 0 <= p_stock p + d) ->
  Forall (fun p => 0 <= p_stock p) ps ->
  Forall (fun p => 0 <= p_stock p) (add_stock k d ps).
Proof.
  intros Hd H. unfold add_stock. apply Forall_modify; auto.
Qed.

Lemma taken_nonneg (prods : list (Z * (Product * Z))) (ps : list Product) :
  NoDup (map fst prods) ->
  Forall (fun e => p_id (fst (snd e)) = fst e /\
                   exists p', query_get p_id (fst e) ps = Some p' /\
                              snd (snd e) <= p_stock p') prods ->
  Forall (fun p => 0 <= p_stock p) ps ->
  Forall (fun p => 0 <= p_stock p) (adjust_all (taken prods) ps).
Proof.
  revert ps. induction prods as [|[pid [p qty]] prods IH]; intros ps Hnd He Hps.
  - exact Hps.
  - inversion Hnd as [|? ? Hnotin Hnd']; subst.
    inversion He as [|? ? [Hid (p' & Hp' & Hq)] He']; subst. simpl in *.
    change (Forall (fun p => 0 <= p_stock p)
                   (adjust_all (taken prods) (add_stock (p_id p) (- qty) ps))).
    apply IH; auto.
    + rewrite Forall_forall in *. intros e Hin.
      destruct (He' e Hin) as [Hide (q & Hq1 & Hq2)]. split; [exact Hide|].
      exists q. split; [|exact Hq2].
      unfold add_stock. rewrite query_get_modify_other; auto.
      intros Heq. apply Hnotin. rewrite <- Hid, <- Heq. apply in_map. exact Hin.
    + apply add_stock_nonneg; auto.
      intros r Hr. rewrite Hid in Hr. rewrite Hr in Hp'.
      injection Hp' as ->. lia.
Qed.

Lemma held_taken (ps : list Product) (prods : list (Z * (Product * Z))) :
  Forall (held ps) prods ->
  Forall (fun e => p_id (fst (snd e)) = fst e /\
                   exists p', query_get p_id (fst e) ps = Some p' /\
                              snd (snd e) <= p_stock p') prods.
Proof.
  intros H. eapply Forall_impl; [|exact H].
  intros e [Hq Hs]. split.
  - apply query_get_some in Hq. tauto.
  - eexists; split; [exact Hq|lia].
Qed.

Lemma restore_stock_nonneg (items : list OrderItem) (ps : list Product) :
  Forall (fun it => 0 <= oi_qty it) items ->
  Forall (fun p => 0 <= p_stock p) ps ->
  Forall (fun p => 0 <= p_stock p) (restore_stock items ps).
Proof.
  intros H. revert ps. induction H as [|it items Hit H IH]; intros ps Hps; simpl.
  - exact Hps.
  - destruct (query_get p_id (oi_product_id it) ps) as [p|] eqn:Ep; auto.
    apply IH. apply add_stock_nonneg; auto.
    intros r Hr. apply query_get_some in Hr. destruct Hr as [_ Hin].
    rewrite Forall_forall in Hps. specialize (Hps r Hin). lia.
Qed.

Lemma restore_stock_keys (items : list OrderItem) (ps : list Product) :
  map p_id (restore_stock items ps) = map p_id ps.
Proof.
  revert ps. induction items as [|it items IH]; intros ps; simpl; [reflexivity|].
  destruct (query_get p_id (oi_product_id it) ps); rewrite IH;
    [apply add_stock_keys|reflexivity].
Qed.

Section Invariant_facts.

Variable int_of_str : string -> option Z.
Variable float_of_str : string -> option float.

(** A property that every request preserves holds after any run. *)
Lemma run_invariant (P : store -> Prop) (Q : op -> Prop) :
  (forall o db, Q o -> P db -> P (snd (exec int_of_str float_of_str o db))) ->
  forall ops db, Forall Q ops -> P db ->
                 P (run int_of_str float_of_str ops db).
Proof.
  intros Hstep ops. unfold run.
  induction ops as [|o ops IH]; intros db HQ Hdb; simpl; [exact Hdb|].
  inversion HQ; subst. apply IH; auto.
Qed.

(** What the handlers that do not place orders leave alone. *)
Lemma api_add_product_frame (rq : request) (db : store) :
  let s := snd (api_add_product int_of_str float_of_str rq db) in
  retailers s = retailers db /\ orders s = orders db /\
  order_items s = order_items db.
Proof.
  unfold api_add_product.
  destruct (get (json_or_form rq) "name" PNone) as [name|e]; simpl; auto.
  destruct (add_product_fields _ _ _) as [[[[cp sp] mrp] stock]|e]; simpl; auto.
  destruct (negb (truthy name)); simpl; auto.
  destruct (insert_product _ _ _ _ _ _); simpl; auto.
Qed.

Lemma api_update_product_stock_frame (rq : request) (db : store) :
  let s := snd (api_update_product_stock int_of_str float_of_str rq db) in
  retailers s = retailers db /\ orders s = orders db /\
  order_items s = order_items db /\
  map p_id (products s) = map p_id (products db).
Proof.
  unfold api_update_product_stock.
  destruct (update_product_stock_fields _ _ _)
    as [[[[[pid k] cp] sp] mrp]|[]]; simpl; auto.
  destruct (negb (int64 pid)); simpl; auto.
  destruct (query_get p_id pid (products db)) as [p|]; simpl; auto.
  destruct ((k >? 0) && negb (int64 _)); simpl; auto.
  repeat split; auto.
  destruct (k >? 0); rewrite ?add_stock_keys; apply modify_keys; reflexivity.
Qed.

Lemma api_add_retailer_frame (rq : request) (db : store) :
  let s := snd (api_add_retailer rq db) in
  products s = products db /\ orders s = orders db /\
  order_items s = order_items db.
Proof.
  unfold api_add_retailer.
  destruct (_ <- get _ _ _ ;; _) as [[[a b] c]|e]; simpl; auto.
  destruct (negb (truthy a)); simpl; auto.
  destruct (insert_retailer _ _ _ _); simpl; auto.
Qed.

Lemma delete_order_frame (oid : Z) (db : store) :
  let s := snd (delete_order oid db) in
  retailers s = retailers db /\ order_items s = order_items db /\
  map o_id (orders s) = map o_id (orders db) /\
  next_id o_id (orders s) = next_id o_id (orders db) /\
  map p_id (products s) = map p_id (products db).
Proof.
  unfold delete_order.
  destruct (query_get o_id oid (orders db)) as [o|]; simpl; auto.
  destruct (String.eqb (o_status o) "deleted"); simpl; auto.
  repeat split.
  - apply modify_keys. reflexivity.
  - apply next_id_modify. reflexivity.
  - apply restore_stock_keys.
Qed.

Lemma deliver_order_frame (oid : Z) (db : store) :
  let s := snd (deliver_order oid db) in
  products s = products db /\
  retailers s = retailers db /\ order_items s = order_items db /\
  map o_id (orders s) = map o_id (orders db) /\
  next_id o_id (orders s) = next_id o_id (orders db).
Proof.
  unfold deliver_order.
  destruct (query_get o_id oid (orders db)) as [o|]; simpl; auto.
  destruct (String.eqb (o_status o) "deleted"); simpl; auto.
  repeat split.
  - apply modify_keys. reflexivity.
  - apply next_id_modify. reflexivity.
Qed.

End Invariant_facts.

Lemma Forall2_right {A B : Type} (R : A -> B -> Prop) (P : B -> Prop)
      (l : list A) (l' : list B) :
  (forall a b, R a b -> P b) -> Forall2 R l l' -> Forall P l'.
Proof. intros HR H. induction H; constructor; eauto. Qed.

Section Preservation.

Variable int_of_str : string -> option Z.
Variable float_of_str : string -> option float.

Lemma api_place_order_items_have_orders (now : Z) (rq : request) (db : store) :
  items_have_orders db ->
  items_have_orders (snd (api_place_order int_of_str now rq db)).
Proof.
  intros Hdb.
  destruct (is_success (fst (api_place_order int_of_str now rq db))) eqn:Es.
  - destruct (api_place_order int_of_str now rq db) as [r s1] eqn:E.
    simpl in *.
    destruct (api_place_order_success _ _ _ _ E Es)
      as (items & rid & g & t & prods & _ & _ & _ & Ha).
    apply add_order_items_spec in Ha. simpl in Ha.
    destruct Ha as (_ & Ho & _ & new & Hi & Hnew).
    unfold items_have_orders in *. rewrite Ho, Hi.
    rewrite next_id_insert by reflexivity.
    apply Forall_app. split.
    + eapply Forall_impl; [|exact Hdb]. simpl. intros. lia.
    + eapply Forall2_right; [|exact Hnew].
      intros e it (Hoid & _). simpl. lia.
  - rewrite api_place_order_failure; assumption.
Qed.

Lemma exec_items_have_orders (o : op) (db : store) :
  items_have_orders db ->
  items_have_orders (snd (exec int_of_str float_of_str o db)).
Proof.
  unfold items_have_orders. intros Hdb. destruct o as [rq|rq|rq|now rq|oid|oid]; simpl.
  - destruct (api_add_product_frame int_of_str float_of_str rq db)
      as (_ & -> & ->). exact Hdb.
  - destruct (api_update_product_stock_frame int_of_str float_of_str rq db)
      as (_ & -> & -> & _). exact Hdb.
  - destruct (api_add_retailer_frame rq db) as (_ & -> & ->). exact Hdb.
  - apply api_place_order_items_have_orders. exact Hdb.
  - destruct (delete_order_frame oid db) as (_ & -> & _ & -> & _). exact Hdb.
  - destruct (deliver_order_frame oid db) as (_ & _ & -> & _ & ->). exact Hdb.
Qed.

Lemma reachable_items_have_orders (s : store) :
  reachable int_of_str float_of_str s -> items_have_orders s.
Proof.
  intros [ops <-].
  apply run_invariant with (P := items_have_orders) (Q := fun _ => True).
  - intros o db _. apply exec_items_have_orders.
  - apply Forall_forall. auto.
  - constructor.
Qed.

Lemma api_add_product_stock_nonneg (rq : request) (db : store) :
  submits_nonneg_stock int_of_str (Add_product rq) ->
  stock_nonneg db ->
  stock_nonneg (snd (api_add_product int_of_str float_of_str rq db)).
Proof.
  unfold submits_nonneg_stock, submitted_stock, api_add_product,
    add_product_fields, stock_nonneg.
  intros Hrq [Hp Hi].
  destruct (get (json_or_form rq) "name" PNone) as [name|e]; simpl; auto.
  destruct (v <- get (json_or_form rq) "cp" (PInt 0) ;; _) as [cp|e];
    simpl; auto.
  destruct (v <- get (json_or_form rq) "sp" (PInt 0) ;; _) as [sp|e];
    simpl; auto.
  destruct (v <- get (json_or_form rq) "mrp" (PInt 0) ;; _) as [mrp|e];
    simpl; auto.
  destruct (v <- get (json_or_form rq) "stock" (PInt 0) ;; _) as [stock|e];
    simpl; auto.
  destruct (negb (truthy name)); simpl; auto.
  destruct (insert_product _ _ _ _ _ _) as [p|e] eqn:Ep; simpl; auto.
  apply insert_product_val in Ep. destruct Ep as (text & _ & _ & _ & ->).
  split; [|exact Hi]. apply Forall_app. split; [exact Hp|].
  repeat constructor. exact Hrq.
Qed.

Lemma api_update_product_stock_nonneg (rq : request) (db : store) :
  stock_nonneg db ->
  stock_nonneg (snd (api_update_product_stock int_of_str float_of_str rq db)).
Proof.
  unfold api_update_product_stock, stock_nonneg. intros [Hp Hi].
  destruct (update_product_stock_fields _ _ _)
    as [[[[[pid k] cp] sp] mrp]|[]]; simpl; auto.
  destruct (negb (int64 pid)); simpl; auto.
  destruct (query_get p_id pid (products db)) as [p|] eqn:Ep; simpl; auto.
  destruct ((k >? 0) && negb (int64 _)); simpl; auto.
  rewrite !store_real_id.
  split; [|exact Hi].
  assert (Hm : Forall (fun p => 0 <= p_stock p)
                      (modify p_id pid (set_prices cp sp mrp) (products db))).
  { apply Forall_modify; auto. intros r Hr.
    apply query_get_some in Hr. destruct Hr as [_ Hin].
    rewrite Forall_forall in Hp. exact (Hp r Hin). }
  destruct (k >? 0) eqn:Ek; [|exact Hm].
  apply add_stock_nonneg; [|exact Hm].
  intros r Hr. apply query_get_some in Hr. destruct Hr as [_ Hin].
  rewrite Forall_forall in Hm. specialize (Hm r Hin). lia.
Qed.

Lemma api_place_order_stock_nonneg (now : Z) (rq : request) (db : store) :
  stock_nonneg db ->
  stock_nonneg (snd (api_place_order int_of_str now rq db)).
Proof.
  intros Hdb.
  destruct (is_success (fst (api_place_order int_of_str now rq db))) eqn:Es.
  - destruct (api_place_order int_of_str now rq db) as [r s1] eqn:E.
    simpl in *.
    destruct (api_place_order_success _ _ _ _ E Es)
      as (items & rid & g & t & prods & _ & Hv & _ & Ha).
    apply validate_items_held in Hv; [|constructor|constructor].
    destruct Hv as [Hnd Hheld].
    apply add_order_items_spec in Ha. simpl in Ha.
    destruct Ha as (_ & _ & Hp & new & Hi & Hnew).
    destruct Hdb as [Hps Hits]. unfold stock_nonneg. rewrite Hp, Hi. split.
    + apply taken_nonneg; auto. apply held_taken. exact Hheld.
    + apply Forall_app. split; [exact Hits|].
      clear - Hheld Hnew. induction Hnew as [|e it prods new Hit H IH];
        constructor.
      * inversion Hheld as [|? ? [_ Hq] _]; subst.
        destruct Hit as (_ & _ & _ & _ & _ & _ & -> & _). lia.
      * apply IH. inversion Hheld; assumption.
  - rewrite api_place_order_failure; assumption.
Qed.

Lemma delete_order_stock_nonneg (oid : Z) (db : store) :
  stock_nonneg db -> stock_nonneg (snd (delete_order oid db)).
Proof.
  unfold delete_order, stock_nonneg. intros [Hp Hi].
  destruct (query_get o_id oid (orders db)) as [o|]; simpl; auto.
  destruct (String.eqb (o_status o) "deleted"); simpl; auto.
  split; [|exact Hi]. apply restore_stock_nonneg; [|exact Hp].
  unfold items_of_order. apply Forall_forall. intros it Hin.
  apply filter_In in Hin. destruct Hin as [Hin _].
  rewrite Forall_forall in Hi. exact (Hi it Hin).
Qed.

Lemma exec_stock_nonneg (o : op) (db : store) :
  submits_nonneg_stock int_of_str o ->
  stock_nonneg db ->
  stock_nonneg (snd (exec int_of_str float_of_str o db)).
Proof.
  intros Ho Hdb. destruct o as [rq|rq|rq|now rq|oid|oid]; simpl.
  - apply api_add_product_stock_nonneg; assumption.
  - apply api_update_product_stock_nonneg; assumption.
  - destruct (api_add_retailer_frame rq db) as (Hp & _ & Hi).
    unfold stock_nonneg. rewrite Hp, Hi. exact Hdb.
  - apply api_place_order_stock_nonneg; assumption.
  - apply delete_order_stock_nonneg; assumption.
  - destruct (deliver_order_frame oid db) as (Hp & _ & Hi & _).
    unfold stock_nonneg. rewrite Hp, Hi. exact Hdb.
Qed.

End Preservation.

(** * The order transaction and the life cycle of an order *)

(** C3. When order placement does not succeed, whatever the reason, the
    store after the request is the store before it: no stock is changed
    and no order or order item is created. *)
Theorem place_order_all_or_nothing
        (int_of_str : string -> option Z) (now : Z) (rq : request) (db : store) :
  is_success (fst (api_place_order int_of_str now rq db)) = false ->
  snd (api_place_order int_of_str now rq db) = db.
Proof.
  intros Hfail.
  destruct (api_place_order int_of_str now rq db) as [r s] eqn:E.
  pose proof (api_place_order_failure int_of_str now rq db) as H.
  rewrite E in H. exact (H Hfail).
Qed.

(** An order for more than the stock is refused with 409, and the store is
    untouched. *)
Lemma place_order_all_or_nothing_witness :
  fst (Scenario.place_order 5 (Scenario.order_request 1 [(1, 101)])
                            Scenario.stocked)
  = Resp 409 (Error (Insufficient_stock (PStr "Soap") 100)) /\
  snd (Scenario.place_order 5 (Scenario.order_request 1 [(1, 101)])
                            Scenario.stocked)
  = Scenario.stocked.
Proof.
  split.
  - vm_compute. reflexivity.
  - apply (place_order_all_or_nothing Ascii_builtins.int_of_str 5
             (Scenario.order_request 1 [(1, 101)]) Scenario.stocked).
    vm_compute. reflexivity.
Defined.

(** C4. Round trip: in every store the application can be in, deleting
    the order a successful placement has just created succeeds and leaves
    every product, and so every stock, as it was before the placement. *)
Theorem place_then_delete_restores_stock
        (int_of_str : string -> option Z) (float_of_str : string -> option float)
        (now : Z) (rq : request) (db s1 : store) (oid : Z) :
  reachable int_of_str float_of_str db ->
  api_place_order int_of_str now rq db = (ok (Ok_order_id oid), s1) ->
  exists s2, delete_order oid s1 = (ok Ok, s2) /\
             products s2 = products db /\
             map p_stock (products s2) = map p_stock (products db).
Proof.
  intros Hreach Hplace.
  apply reachable_items_have_orders in Hreach.
  destruct (api_place_order_success _ _ _ _ Hplace eq_refl)
    as (items & rid & g & t & prods & _ & Hv & Hr & Ha).
  injection Hr as ->.
  apply validate_items_held in Hv; [|constructor|constructor].
  destruct Hv as [_ Hheld].
  apply add_order_items_spec in Ha. simpl in Ha.
  destruct Ha as (_ & Ho & Hp & new & Hi & Hnew).
  unfold delete_order. rewrite Ho.
  rewrite query_get_fresh; [|apply next_id_above|reflexivity].
  simpl. eexists. split; [reflexivity|]. simpl.
  assert (Hitems : items_of_order (next_id o_id (orders db)) s1 = new).
  { unfold items_of_order. rewrite Hi. apply items_of_fresh_order; auto.
    eapply Forall2_right; [|exact Hnew]. intros e it (H & _). exact H. }
  assert (Hps : restore_stock (items_of_order (next_id o_id (orders db)) s1)
                              (products s1) = products db).
  { rewrite Hitems, Hp.
    rewrite (restore_stock_given_back (adjust_all (taken prods) (products db)) Hnew).
    - unfold given_back, taken.
      rewrite <- (adjust_all_undo
                    (map (fun e => (p_id (fst (snd e)), snd (snd e))) prods)
                    (products db)) at 2.
      rewrite map_map. reflexivity.
    - eapply Forall_impl; [|exact Hheld].
      intros e [Hq _]. rewrite adjust_all_keys.
      apply query_get_some in Hq. destruct Hq as [_ Hin].
      apply in_map. exact Hin. }
  rewrite Hps. auto.
Qed.

(** Ten pieces of soap ordered and the order deleted: the stock is 100
    again. *)
Lemma place_then_delete_restores_stock_witness :
  exists s2, delete_order 1 Scenario.ordered = (ok Ok, s2) /\
             products s2 = products Scenario.stocked /\
             map p_stock (products s2) = map p_stock (products Scenario.stocked).
Proof.
  apply (@place_then_delete_restores_stock
           Ascii_builtins.int_of_str Ascii_builtins.float_of_str 5
           (Scenario.order_request 1 [(1, 10)]) Scenario.stocked
           Scenario.ordered 1).
  - exists [Add_product Scenario.soap; Add_retailer Scenario.abc_store].
    reflexivity.
  - vm_compute. reflexivity.
Defined.

(** C7. Deleting an order whose status is already "deleted" is refused
    ('Already deleted', which the handler answers with status 400), and the
    store, its stocks and the order included, stays as it was. *)
Theorem delete_deleted_order_rejected (oid : Z) (db : store) (o : Order) :
  query_get o_id oid (orders db) = Some o ->
  o_status o = "deleted" ->
  delete_order oid db = (Resp 400 (Error Already_deleted), db).
Proof.
  intros Hget Hst. unfold delete_order. rewrite Hget, Hst. reflexivity.
Qed.

(** The order of the scenario, deleted once, cannot be deleted again. *)
Lemma delete_deleted_order_rejected_witness :
  delete_order 1 (Scenario.serve [Delete_order 1] Scenario.ordered)
  = (Resp 400 (Error Already_deleted),
     Scenario.serve [Delete_order 1] Scenario.ordered).
Proof.
  apply (@delete_deleted_order_rejected 1
           (Scenario.serve [Delete_order 1] Scenario.ordered)
           (mkOrder 1 1 5 150 10 "deleted")).
  - vm_compute. reflexivity.
  - reflexivity.
Defined.

(** C1. A request that lists product 1 twice, 3 pieces and then 4 (the
    product sells at 15): the order records 7 items and a grand total of
    105, while its only item has quantity 4 and item total 60, and the
    stock goes from 100 to 96. *)
Theorem place_order_duplicate_product_totals :
  let s := snd (Scenario.place_order 5 (Scenario.order_request 1 [(1, 3); (1, 4)])
                                     Scenario.stocked) in
  fst (Scenario.place_order 5 (Scenario.order_request 1 [(1, 3); (1, 4)])
                            Scenario.stocked) = ok (Ok_order_id 1) /\
  map o_total_items (orders s) = [7] /\
  sum_qty (items_of_order 1 s) = 4 /\
  map o_grand_total (orders s) = [105%float] /\
  sum_item_total (items_of_order 1 s) = 60%float /\
  map p_stock (products s) = [96].
Proof. vm_compute. repeat split; reflexivity. Qed.

(** C5. A request with a retailer and an empty list of items is not
    refused: in every store it is answered 200 and an order without items,
    with totals 0, is inserted. *)
Theorem place_order_empty_items_accepted
        (int_of_str : string -> option Z) (now : Z) (db : store) :
  api_place_order int_of_str now
    (json_request (PDict [("retailer_id", PInt 1); ("items", PList [])])) db
  = (ok (Ok_order_id (next_id o_id (orders db))),
     with_orders
       (orders db ++ [mkOrder (next_id o_id (orders db)) 1 now 0%float 0
                              "pending"]) db).
Proof. reflexivity. Qed.

(** C2, as stated, fails: add-product stores the stock it is sent, and a
    request that sends -5 leaves a product whose stock is -5. *)
Lemma add_product_negative_stock :
  map p_stock
      (products
         (Scenario.serve
            [Add_product (json_request (PDict [("name", PStr "Soap");
                                               ("stock", PInt (-5))]))]
            empty_store))
  = [-5].
Proof. vm_compute. reflexivity. Qed.

(** C2, amended. Restock, order placement, order deletion and delivery
    never make a stock negative, and add-product stores the stock it is
    sent: after any sequence of requests whose add-product requests send no
    negative stock, no product has a negative stock. *)
Theorem stock_never_negative
        (int_of_str : string -> option Z) (float_of_str : string -> option float)
        (ops : list op) :
  Forall (submits_nonneg_stock int_of_str) ops ->
  Forall (fun p => 0 <= p_stock p)
         (products (run int_of_str float_of_str ops empty_store)).
Proof.
  intros Hops.
  apply (@run_invariant int_of_str float_of_str
           stock_nonneg (submits_nonneg_stock int_of_str)).
  - intros o db. apply exec_stock_nonneg.
  - exact Hops.
  - split; constructor.
Qed.

(** A run through every kind of request, the stock sent being 100. *)
Lemma stock_never_negative_witness :
  Forall (fun p => 0 <= p_stock p)
         (products
            (Scenario.serve
               [Add_product Scenario.soap; Add_retailer Scenario.abc_store;
                Place_order 5 (Scenario.order_request 1 [(1, 100)]);
                Update_product_stock
                  (json_request (PDict [("id", PInt 1);
                                        ("stock_to_add", PInt (-7))]));
                Deliver_order 1; Delete_order 1]
               empty_store)).
Proof.
  apply (@stock_never_negative
           Ascii_builtins.int_of_str Ascii_builtins.float_of_str).
  repeat constructor. vm_compute. discriminate.
Defined.






(** C8, as stated, fails: the stock is an integer of 64 bits.  A restock
    of the soap (stock 100) by 9223372036854775807 raises [OverflowError]
    when the row is written: the stock is not increased and the prices of
    the request are not set. *)
Lemma restock_beyond_64_bits_refused :
  let rq := json_request (PDict [("id", PInt 1);
                                 ("stock_to_add", PInt 9223372036854775807);
                                 ("cp", PInt 11); ("sp", PInt 16);
                                 ("mrp", PInt 21)]) in
  api_update_product_stock Ascii_builtins.int_of_str
    Ascii_builtins.float_of_str rq Scenario.stocked
  = (Unhandled OverflowError, Scenario.stocked) /\
  query_get p_id 1 (products Scenario.stocked)
  = Some (mkProduct 1 (PStr "Soap") 10 15 20 100).
Proof. vm_compute. split; reflexivity. Qed.

(** C8, amended. A restock request is a JSON object whose [id] and
    [stock_to_add] (0 when absent) convert to integers and whose [cp],
    [sp] and [mrp] (0 when absent) convert to floats, on a product that
    exists, its id an integer of 64 bits.  When [stock_to_add] is positive
    and the sum of the stock and [stock_to_add] is no integer of 64 bits,
    the request raises [OverflowError] and the store stays as it was.  In
    every other case it is answered with the new stock; the product keeps
    its key and name, gets the [cp], [sp] and [mrp] of the request (NULL
    for a NaN) whatever [stock_to_add] is, and its stock grows by
    [stock_to_add] exactly when [stock_to_add] is positive; no other
    product and no other table changes. *)
Theorem restock_sets_prices_and_adds_stock
        (int_of_str : string -> option Z) (float_of_str : string -> option float)
        (rq : request) (db : store) (d : list (string * pyval))
        (product_id stock_to_add : Z) (cp sp mrp : float) (p : Product) :
  json rq = PDict d ->
  py_int int_of_str (field d "id" PNone) = Val product_id ->
  py_int int_of_str (field d "stock_to_add" (PInt 0)) = Val stock_to_add ->
  py_float float_of_str (field d "cp" (PInt 0)) = Val cp ->
  py_float float_of_str (field d "sp" (PInt 0)) = Val sp ->
  py_float float_of_str (field d "mrp" (PInt 0)) = Val mrp ->
  int64 product_id = true ->
  query_get p_id product_id (products db) = Some p ->
  let new_stock :=
    if 0 <? stock_to_add then p_stock p + stock_to_add else p_stock p in
  let r := api_update_product_stock int_of_str float_of_str rq db in
  if (0 <? stock_to_add) && negb (int64 (p_stock p + stock_to_add))
  then r = (Unhandled OverflowError, db)
  else
    fst r = ok (Ok_new_stock new_stock) /\
    query_get p_id product_id (products (snd r))
    = Some (mkProduct (p_id p) (p_name p) (store_real cp) (store_real sp)
                      (store_real mrp) new_stock) /\
    (forall k, k <> product_id ->
               query_get p_id k (products (snd r))
               = query_get p_id k (products db)) /\
    map p_id (products (snd r)) = map p_id (products db) /\
    retailers (snd r) = retailers db /\ orders (snd r) = orders db /\
    order_items (snd r) = order_items db.
Proof.
  intros Hjson Hid Hadd Hcp Hsp Hmrp Hkey Hget new_stock r.
  destruct (api_update_product_stock_frame int_of_str float_of_str rq db)
    as (Hr & Ho & Hi & Hk).
  fold r in Hr, Ho, Hi, Hk.
  assert (Hfields : update_product_stock_fields int_of_str float_of_str
                      (json rq)
                    = Val (product_id, stock_to_add, cp, sp, mrp)).
  { rewrite Hjson. unfold update_product_stock_fields, get.
    fold (field d "id" PNone). fold (field d "stock_to_add" (PInt 0)).
    fold (field d "cp" (PInt 0)). fold (field d "sp" (PInt 0)).
    fold (field d "mrp" (PInt 0)). simpl.
    rewrite Hid; simpl. rewrite Hadd; simpl. rewrite Hcp; simpl.
    rewrite Hsp; simpl. rewrite Hmrp; simpl. reflexivity. }
  assert (Hs : r = if (0 <? stock_to_add)
                      && negb (int64 (p_stock p + stock_to_add))
                   then (Unhandled OverflowError, db)
                   else (ok (Ok_new_stock new_stock),
                         with_products
                           (let ps := modify p_id product_id
                                             (set_prices (store_real cp)
                                                         (store_real sp)
                                                         (store_real mrp))
                                             (products db) in
                            if 0 <? stock_to_add
                            then add_stock product_id stock_to_add ps
                            else ps) db)).
  { unfold r, api_update_product_stock. rewrite Hfields, Hkey, Hget.
    unfold new_stock. rewrite Z.gtb_ltb. simpl negb. cbv iota.
    destruct (0 <? stock_to_add); reflexivity. }
  destruct ((0 <? stock_to_add) && negb (int64 (p_stock p + stock_to_add)));
    [exact Hs|].
  rewrite Hs in Hk |- *. simpl. repeat split; auto.
  - unfold new_stock.
    destruct (0 <? stock_to_add).
    + unfold add_stock.
      erewrite query_get_modify_same;
        [|reflexivity|apply query_get_modify_same; [reflexivity|exact Hget]].
      reflexivity.
    + erewrite query_get_modify_same; [|reflexivity|exact Hget]. reflexivity.
  - intros k Hk'. destruct (0 <? stock_to_add); unfold add_stock;
      repeat rewrite query_get_modify_other by (auto; reflexivity);
      reflexivity.
Qed.

(** Two restocks of the soap (stock 100) at new prices: by 5, the stock
    becomes 105; by -3, the stock stays at 100; the prices are set both
    times. *)
Lemma restock_sets_prices_and_adds_stock_witness :
  (let r := api_update_product_stock Ascii_builtins.int_of_str
              Ascii_builtins.float_of_str
              (json_request (PDict [("id", PInt 1); ("stock_to_add", PInt 5);
                                    ("cp", PInt 11); ("sp", PStr "16.5");
                                    ("mrp", PInt 21)]))
              Scenario.stocked in
   fst r = ok (Ok_new_stock 105) /\
   products (snd r) = [mkProduct 1 (PStr "Soap") 11 16.5 21 105]) /\
  (let r := api_update_product_stock Ascii_builtins.int_of_str
              Ascii_builtins.float_of_str
              (json_request (PDict [("id", PInt 1);
                                    ("stock_to_add", PInt (-3));
                                    ("cp", PInt 11); ("sp", PStr "16.5");
                                    ("mrp", PInt 21)]))
              Scenario.stocked in
   fst r = ok (Ok_new_stock 100) /\
   products (snd r) = [mkProduct 1 (PStr "Soap") 11 16.5 21 100]).
Proof.
  pose proof
       (@restock_sets_prices_and_adds_stock
          Ascii_builtins.int_of_str Ascii_builtins.float_of_str
          (json_request (PDict [("id", PInt 1); ("stock_to_add", PInt 5);
                                ("cp", PInt 11); ("sp", PStr "16.5");
                                ("mrp", PInt 21)]))
          Scenario.stocked
          [("id", PInt 1); ("stock_to_add", PInt 5);
           ("cp", PInt 11); ("sp", PStr "16.5"); ("mrp", PInt 21)]
          1 5 11 16.5 21 (mkProduct 1 (PStr "Soap") 10 15 20 100)
          eq_refl eq_refl eq_refl eq_refl eq_refl eq_refl eq_refl eq_refl)
    as Hadd.
  pose proof
       (@restock_sets_prices_and_adds_stock
          Ascii_builtins.int_of_str Ascii_builtins.float_of_str
          (json_request (PDict [("id", PInt 1); ("stock_to_add", PInt (-3));
                                ("cp", PInt 11); ("sp", PStr "16.5");
                                ("mrp", PInt 21)]))
          Scenario.stocked
          [("id", PInt 1); ("stock_to_add", PInt (-3));
           ("cp", PInt 11); ("sp", PStr "16.5"); ("mrp", PInt 21)]
          1 (-3) 11 16.5 21 (mkProduct 1 (PStr "Soap") 10 15 20 100)
          eq_refl eq_refl eq_refl eq_refl eq_refl eq_refl eq_refl eq_refl)
    as Hkeep.
  split.
  - destruct Hadd as (Hresp & _). split; [exact Hresp|].
    vm_compute. reflexivity.
  - destruct Hkeep as (Hresp & _). split; [exact Hresp|].
    vm_compute. reflexivity.
Defined.

(** ** The listings *)

Lemma insert_by_date_desc_perm (o : Order) (l : list Order) :
  Permutation (insert_by_date_desc o l) (o :: l).
Proof.
  induction l as [|x l IH]; simpl; [reflexivity|].
  destruct (o_date x <=? o_date o); [reflexivity|].
  rewrite IH. apply perm_swap.
Qed.

Lemma order_by_date_desc_perm (l : list Order) :
  Permutation (order_by_date_desc l) l.
Proof.
  induction l as [|x l IH]; simpl; [reflexivity|].
  rewrite insert_by_date_desc_perm. constructor. exact IH.
Qed.

Lemma insert_by_date_desc_sorted (o : Order) (l : list Order) :
  StronglySorted later_first l ->
  StronglySorted later_first (insert_by_date_desc o l).
Proof.
  intros H. induction H as [|x l Hl IH Hx]; simpl.
  - repeat constructor.
  - destruct (o_date x <=? o_date o) eqn:E.
    + apply Z.leb_le in E. constructor; [constructor; assumption|].
      constructor; [exact E|].
      eapply Forall_impl; [|exact Hx]. unfold later_first. intros. lia.
    + apply Z.leb_gt in E. constructor; [exact IH|].
      eapply Permutation_Forall;
        [symmetry; apply insert_by_date_desc_perm|].
      constructor; [unfold later_first; lia|exact Hx].
Qed.

Lemma order_by_date_desc_sorted (l : list Order) :
  StronglySorted later_first (order_by_date_desc l).
Proof.
  induction l as [|x l IH]; simpl; [constructor|].
  apply insert_by_date_desc_sorted. exact IH.
Qed.

Lemma StronglySorted_map {A B : Type} (R : A -> A -> Prop) (R' : B -> B -> Prop)
      (f : A -> B) (l : list A) :
  (forall a b, R a b -> R' (f a) (f b)) ->
  StronglySorted R l -> StronglySorted R' (map f l).
Proof.
  intros HR H. induction H as [|x l Hl IH Hx]; simpl; constructor; auto.
  apply Forall_map. eapply Forall_impl; [|exact Hx]. intros; apply HR; auto.
Qed.

(** C9. The active listing has one element for each order whose status
    is not "deleted" and for no other: the element carries the id, the
    date, the retailer id, the shop name of the retailer (none when the id
    is 0 or names no retailer), the totals and the status of the order,
    and the name, quantity, price and total of each of its items; the
    later order comes first and no element has the status "deleted".  The
    export has the lines of the orders of every status: one line for every
    item of every order, carrying the id, the date, the totals and the
    status of the order, "deleted" included. *)
Theorem listing_hides_deleted_export_keeps_them (db : store) :
  Permutation
    (api_orders db)
    (map (fun o =>
            mkOrderView
              (o_id o) (o_date o) (o_retailer_id o)
              (match (if o_retailer_id o =? 0 then None
                      else query_get r_id (o_retailer_id o) (retailers db)) with
               | Some r => r_shop_name r
               | None => PNone
               end)
              (o_grand_total o) (o_total_items o) (o_status o)
              (map (fun it => mkItemView (oi_product_name it) (oi_qty it)
                                         (oi_sp it) (oi_item_total it))
                   (filter (fun it => oi_order_id it =? o_id o)
                           (order_items db))))
         (filter (fun o => negb (String.eqb (o_status o) "deleted"))
                 (orders db))) /\
  StronglySorted (fun a b => ov_date b <= ov_date a) (api_orders db) /\
  Forall (fun v => String.eqb (ov_status v) "deleted" = false) (api_orders db) /\
  Permutation
    (export_csv db)
    (flat_map (fun o =>
                 map (fun it =>
                        mkCsvRow
                          (o_id o) (o_date o)
                          (match query_get r_id (o_retailer_id o)
                                           (retailers db) with
                           | Some r => r_shop_name r
                           | None => PStr ""
                           end)
                          (oi_product_name it) (oi_qty it) (oi_sp it)
                          (oi_cp it) (oi_item_total it) (o_grand_total o)
                          (o_status o))
                     (filter (fun it => oi_order_id it =? o_id o)
                             (order_items db)))
              (orders db)) /\
  (forall o it,
      In o (orders db) -> In it (order_items db) -> oi_order_id it = o_id o ->
      exists row, In row (export_csv db) /\
                  csv_order_id row = o_id o /\ csv_status row = o_status o /\
                  csv_product row = oi_product_name it /\
                  csv_qty row = oi_qty it).
Proof.
  assert (Hperm : Permutation (active_orders db) (filter is_active (orders db))).
  { apply order_by_date_desc_perm. }
  assert (Hview : forall o,
             view_of_order db o
             = mkOrderView
                 (o_id o) (o_date o) (o_retailer_id o)
                 (match (if o_retailer_id o =? 0 then None
                         else query_get r_id (o_retailer_id o) (retailers db))
                  with
                  | Some r => r_shop_name r
                  | None => PNone
                  end)
                 (o_grand_total o) (o_total_items o) (o_status o)
                 (map (fun it => mkItemView (oi_product_name it) (oi_qty it)
                                            (oi_sp it) (oi_item_total it))
                      (filter (fun it => oi_order_id it =? o_id o)
                              (order_items db)))).
  { intros o. unfold view_of_order.
    destruct (o_retailer_id o =? 0); reflexivity. }
  repeat split.
  - unfold api_orders.
    rewrite <- (map_ext _ _ Hview).
    apply Permutation_map. exact Hperm.
  - unfold api_orders, active_orders.
    apply (StronglySorted_map (R := later_first)); [auto|].
    apply order_by_date_desc_sorted.
  - unfold api_orders. apply Forall_map.
    eapply Permutation_Forall; [symmetry; exact Hperm|].
    apply Forall_forall. intros o Ho. apply filter_In in Ho.
    destruct Ho as [_ Ho]. unfold is_active in Ho. simpl.
    destruct (String.eqb (o_status o) "deleted"); [discriminate|reflexivity].
  - unfold export_csv.
    apply (Permutation_flat_map (rows_of_order db)).
    apply order_by_date_desc_perm.
  - intros o it Ho Hit Hoid.
    exists (csv_row_of o (query_get r_id (o_retailer_id o) (retailers db)) it).
    split; [|repeat split].
    unfold export_csv. apply in_flat_map. exists o. split.
    + eapply Permutation_in; [symmetry; apply order_by_date_desc_perm|exact Ho].
    + unfold rows_of_order. apply in_map. unfold items_of_order.
      apply filter_In. split; [exact Hit|]. apply Z.eqb_eq. exact Hoid.
Qed.

(** The order of the scenario, deleted after a second order of 5 pieces
    of soap: the listing shows the second order only, and the export still
    has the line of the first, marked "deleted". *)
Lemma listing_hides_deleted_export_keeps_them_witness :
  let s := Scenario.serve
             [Place_order 7 (Scenario.order_request 1 [(1, 5)]);
              Delete_order 1] Scenario.ordered in
  api_orders s
  = [mkOrderView 2 7 1 (PStr "ABC Store") 75 5 "pending"
                 [mkItemView (PStr "Soap") 5 15 75]] /\
  map csv_order_id (export_csv s) = [2; 1] /\
  exists row,
    In row (export_csv s) /\
    csv_order_id row = 1 /\ csv_status row = "deleted" /\
    csv_product row = PStr "Soap" /\ csv_qty row = 10.
Proof.
  split; [|split; [vm_compute; reflexivity|]].
  - apply Permutation_length_1_inv. symmetry.
    exact (proj1 (listing_hides_deleted_export_keeps_them
                    (Scenario.serve
                       [Place_order 7 (Scenario.order_request 1 [(1, 5)]);
                        Delete_order 1] Scenario.ordered))).
  - apply (proj2 (proj2 (proj2 (proj2
             (listing_hides_deleted_export_keeps_them
                (Scenario.serve
                   [Place_order 7 (Scenario.order_request 1 [(1, 5)]);
                    Delete_order 1] Scenario.ordered)))))
             (mkOrder 1 1 5 150 10 "deleted")
             (mkOrderItem 1 1 1 (PStr "Soap") 10 15 20 10 150)).
    + vm_compute. auto.
    + vm_compute. auto.
    + reflexivity.
Defined.

Lemma modify_rows {row : Type} (key : row -> Z) (k : Z) (f : row -> row)
      (t : list row) :
  Forall2 (fun before after => after = before \/ (key before = k /\ after = f before))
          t (modify key k f t).
Proof.
  induction t as [|x t IH]; simpl; [constructor|].
  destruct (key x =? k) eqn:E.
  - apply Z.eqb_eq in E. constructor; [right; auto|].
    clear. induction t; constructor; auto.
  - constructor; [left; reflexivity|exact IH].
Qed.

(** C10. Delivery is refused only for an order that does not exist (404)
    or whose status is "deleted" (400).  For an order of any other status,
    "delivered" included, it succeeds: the status of that order becomes
    "delivered", its other fields and every other order stay as they were,
    and the products, retailers and items are untouched. *)
Theorem deliver_order_refused_only_if_missing_or_deleted (oid : Z) (db : store) :
  (query_get o_id oid (orders db) = None ->
   deliver_order oid db = (Resp 404 (Error Order_not_found), db)) /\
  (forall o, query_get o_id oid (orders db) = Some o ->
             o_status o = "deleted" ->
             deliver_order oid db = (Resp 400 (Error Order_already_deleted), db)) /\
  (forall o, query_get o_id oid (orders db) = Some o ->
             String.eqb (o_status o) "deleted" = false ->
             exists s,
               deliver_order oid db = (ok Ok, s) /\
               query_get o_id oid (orders s) = Some (set_status "delivered" o) /\
               Forall2 (delivered_or_same oid) (orders db) (orders s) /\
               products s = products db /\ retailers s = retailers db /\
               order_items s = order_items db).
Proof.
  unfold deliver_order. repeat split.
  - intros ->. reflexivity.
  - intros o -> ->. reflexivity.
  - intros o Hget Hst. rewrite Hget, Hst.
    destruct (query_get_some _ _ _ Hget) as [Hid _].
    eexists. split; [reflexivity|]. simpl. rewrite Hid. repeat split.
    + apply query_get_modify_same; [reflexivity|exact Hget].
    + apply (modify_rows o_id oid (set_status "delivered") (orders db)).
Qed.

(** The order of the scenario delivered twice: the second delivery is
    answered like the first, and the order stays "delivered". *)
Lemma deliver_order_refused_only_if_missing_or_deleted_witness :
  exists s,
    deliver_order 1 (Scenario.serve [Deliver_order 1] Scenario.ordered)
    = (ok Ok, s) /\
    query_get o_id 1 (orders s) = Some (mkOrder 1 1 5 150 10 "delivered") /\
    Forall2 (delivered_or_same 1)
            (orders (Scenario.serve [Deliver_order 1] Scenario.ordered))
            (orders s) /\
    products s = products (Scenario.serve [Deliver_order 1] Scenario.ordered) /\
    retailers s = retailers (Scenario.serve [Deliver_order 1] Scenario.ordered) /\
    order_items s
    = order_items (Scenario.serve [Deliver_order 1] Scenario.ordered).
Proof.
  apply (proj2 (proj2 (deliver_order_refused_only_if_missing_or_deleted 1
                         (Scenario.serve [Deliver_order 1] Scenario.ordered)))
               (mkOrder 1 1 5 150 10 "delivered")).
  - vm_compute. reflexivity.
  - reflexivity.
Defined.

(** ** Totals of an order whose items name distinct products *)

Lemma dict_set_fresh {V : Type} (k : Z) (v : V) (d : list (Z * V)) :
  ~ In k (map fst d) -> dict_set k v d = d ++ [(k, v)].
Proof.
  induction d as [|[k' v'] d IH]; simpl; intros Hk; [reflexivity|].
  destruct (k' =? k) eqn:E.
  - apply Z.eqb_eq in E. tauto.
  - rewrite IH; tauto.
Qed.

Lemma validate_items_distinct (int_of_str : string -> option Z) (db : store)
      (items : list pyval) (g g' : float) (t t' : Z)
      (prods prods' : list (Z * (Product * Z))) :
  validate_items int_of_str db items (g, t, prods) = inr (g', t', prods') ->
  NoDup (map fst prods ++ requested_ids int_of_str items) ->
  exists added,
    prods' = prods ++ added /\
    map (fun e => (fst e, snd (snd e))) added
    = requested_lines int_of_str items /\
    t' = fold_left (fun a e => a + snd (snd e)) added t /\
    g' = fold_left (fun a e => PrimFloat.add a (line_total e)) added g.
Proof.
  unfold requested_ids.
  revert g t prods. induction items as [|it items IH]; intros g t prods; simpl.
  - intros [= <- <- <-] _. exists []. rewrite app_nil_r. auto.
  - destruct (item_fields int_of_str it) as [[pid qty]|e]; [|discriminate].
    destruct (qty <=? 0); [discriminate|].
    destruct (negb (int64 pid)); [discriminate|].
    destruct (query_get p_id pid (products db)) as [p|]; [|discriminate].
    destruct (p_stock p <? qty); [discriminate|].
    destruct (column_mul_int (p_sp p) qty) as [x|e] eqn:Ex; [|discriminate].
    simpl. intros H Hnd.
    assert (Hfresh : ~ In pid (map fst prods)).
    { apply NoDup_remove_2 in Hnd. intros Hin. apply Hnd.
      apply in_or_app. left. exact Hin. }
    rewrite dict_set_fresh in H by exact Hfresh.
    apply IH in H.
    + destruct H as (added & -> & Hl & -> & ->).
      exists ((pid, (p, qty)) :: added). rewrite <- app_assoc. simpl.
      replace (line_total (pid, (p, qty))) with x
        by (unfold line_total; simpl;
            rewrite (@column_mul_int_val _ _ _ Ex); reflexivity).
      rewrite Hl. auto.
    + rewrite map_app, <- app_assoc. exact Hnd.
Qed.


Lemma adjust_all_lookup (l : list (Z * Z)) (k : Z) (ps : list Product)
      (p : Product) :
  query_get p_id k ps = Some p ->
  query_get p_id k (adjust_all l ps)
  = Some (set_stock (p_stock p + change_of k l) p).
Proof.
  revert ps p. induction l as [|[k' d] l IH]; intros ps p Hget.
  - simpl. rewrite Hget. destruct p; unfold set_stock; simpl.
    do 2 f_equal. lia.
  - change (adjust_all ((k', d) :: l) ps)
      with (adjust_all l (add_stock k' d ps)).
    simpl change_of. destruct (k' =? k) eqn:E.
    + apply Z.eqb_eq in E. subst k'.
      erewrite IH;
        [|unfold add_stock; apply query_get_modify_same;
          [reflexivity|exact Hget]].
      unfold set_stock; simpl. do 2 f_equal. lia.
    + apply Z.eqb_neq in E. apply IH. unfold add_stock.
      rewrite query_get_modify_other; auto.
Qed.

Lemma adjust_all_lookup_none (l : list (Z * Z)) (k : Z) (ps : list Product) :
  query_get p_id k ps = None -> query_get p_id k (adjust_all l ps) = None.
Proof.
  intros H. destruct (query_get p_id k (adjust_all l ps)) as [p|] eqn:E;
    [|reflexivity].
  apply query_get_some in E. destruct E as [Hk Hin].
  assert (Hkeys : In k (map p_id ps)).
  { rewrite <- (adjust_all_keys l ps), <- Hk. apply in_map. exact Hin. }
  apply query_get_in_keys in Hkeys. destruct Hkeys as [r Hr]. congruence.
Qed.

Lemma change_of_absent (k : Z) (l : list (Z * Z)) :
  ~ In k (map fst l) -> change_of k l = 0.
Proof.
  induction l as [|[k' d] l IH]; simpl; intros H; [reflexivity|].
  destruct (k' =? k) eqn:E; [apply Z.eqb_eq in E; tauto|apply IH; tauto].
Qed.

Lemma change_of_distinct (k d : Z) (l : list (Z * Z)) :
  NoDup (map fst l) -> In (k, d) l -> change_of k l = d.
Proof.
  induction l as [|[k' d'] l IH]; simpl; intros Hnd Hin; [tauto|].
  inversion Hnd as [|? ? Hnotin Hnd']; subst.
  destruct Hin as [[= -> ->]|Hin].
  - rewrite Z.eqb_refl, change_of_absent by exact Hnotin. lia.
  - destruct (k' =? k) eqn:E.
    + apply Z.eqb_eq in E. subst k'. exfalso. apply Hnotin.
      change k with (fst (k, d)). apply in_map. exact Hin.
    + apply IH; assumption.
Qed.

Lemma taken_lines (ps : list Product) (prods : list (Z * (Product * Z))) :
  Forall (held ps) prods ->
  taken prods
  = map (fun l => (fst l, - snd l))
        (map (fun e => (fst e, snd (snd e))) prods).
Proof.
  intros H. unfold taken.
  induction H as [|[pid [p qty]] prods [Hq _] H IH]; simpl.
  - reflexivity.
  - apply query_get_some in Hq. simpl in Hq. destruct Hq as [-> _].
    f_equal. exact IH.
Qed.



(** For a request that names no product twice, a successful placement
    takes from each product it names exactly the quantity asked for, which
    the stock covered, and leaves every other product as it was. *)
Theorem place_order_takes_requested_stock
        (int_of_str : string -> option Z)
        (now : Z) (rq : request) (db s1 : store) (oid : Z) (items : list pyval) :
  api_place_order int_of_str now rq db = (ok (Ok_order_id oid), s1) ->
  items_payload_of (json rq) = Val (Some items) ->
  NoDup (requested_ids int_of_str items) ->
  (forall pid qty,
      In (pid, qty) (requested_lines int_of_str items) ->
      exists p, query_get p_id pid (products db) = Some p /\
                0 < qty <= p_stock p /\
                query_get p_id pid (products s1)
                = Some (set_stock (p_stock p - qty) p)) /\
  (forall pid,
      ~ In pid (requested_ids int_of_str items) ->
      query_get p_id pid (products s1) = query_get p_id pid (products db)).
Proof.
  intros Hplace Hitems Hnd.
  destruct (api_place_order_success _ _ _ _ Hplace eq_refl)
    as (items' & rid & g & t & prods & Hitems' & Hv & Hr & Ha).
  rewrite Hitems in Hitems'. injection Hitems' as <-.
  assert (Hheld := Hv).
  apply validate_items_held in Hheld; [|constructor|constructor].
  destruct Hheld as [_ Hheld].
  apply validate_items_distinct in Hv; [|exact Hnd].
  destruct Hv as (added & -> & Hlines & _ & _). simpl in Ha, Hheld.
  apply add_order_items_spec in Ha. simpl in Ha.
  destruct Ha as (_ & _ & Hp & _).
  rewrite (taken_lines Hheld), Hlines in Hp. rewrite Hp.
  assert (Hneg : forall k d,
             In (k, d) (requested_lines int_of_str items) ->
             change_of k (map (fun l => (fst l, - snd l))
                              (requested_lines int_of_str items)) = - d).
  { intros k d Hin. apply change_of_distinct.
    - rewrite map_map. simpl. exact Hnd.
    - change (k, - d) with ((fun l : Z * Z => (fst l, - snd l)) (k, d)).
      apply in_map. exact Hin. }
  split.
  - intros pid qty Hin.
    assert (He : exists p, In (pid, (p, qty)) added).
    { rewrite <- Hlines in Hin. apply in_map_iff in Hin.
      destruct Hin as ([k [p q]] & [= <- <-] & Hin). eauto. }
    destruct He as [p He]. rewrite Forall_forall in Hheld.
    destruct (Hheld _ He) as [Hq Hs]. simpl in Hq, Hs.
    exists p. split; [exact Hq|]. split; [exact Hs|].
    erewrite adjust_all_lookup by exact Hq.
    rewrite (Hneg _ _ Hin). reflexivity.
  - intros pid Hnot.
    destruct (query_get p_id pid (products db)) as [p|] eqn:Eq.
    + erewrite adjust_all_lookup by exact Eq.
      rewrite change_of_absent.
      * destruct p; unfold set_stock; simpl. do 2 f_equal. lia.
      * rewrite map_map. simpl. exact Hnot.
    + apply adjust_all_lookup_none. exact Eq.
Qed.

(** Ten pieces of soap: the stock goes from 100 to 90. *)
Lemma place_order_takes_requested_stock_witness :
  exists p, query_get p_id 1 (products Scenario.stocked) = Some p /\
            0 < 10 <= p_stock p /\
            query_get p_id 1 (products Scenario.ordered)
            = Some (set_stock (p_stock p - 10) p).
Proof.
  apply (proj1 (@place_order_takes_requested_stock
                  Ascii_builtins.int_of_str 5
                  (Scenario.order_request 1 [(1, 10)]) Scenario.stocked
                  Scenario.ordered 1
                  [PDict [("product_id", PInt 1); ("qty", PInt 10)]]
                  eq_refl eq_refl
                  (NoDup_cons 1 (@in_nil Z 1) (NoDup_nil Z)))).
  left. reflexivity.
Defined.

Lemma validate_items_valid (int_of_str : string -> option Z) (db : store)
      (items : list pyval) (acc acc' : totals) :
  validate_items int_of_str db items acc = inr acc' ->
  Forall (valid_line int_of_str db) items.
Proof.
  revert acc. induction items as [|it items IH]; intros [[g t] prods]; simpl.
  - constructor.
  - destruct (item_fields int_of_str it) as [[pid qty]|e] eqn:Ef; [|discriminate].
    destruct (qty <=? 0) eqn:Eq; [discriminate|].
    destruct (negb (int64 pid)); [discriminate|].
    destruct (query_get p_id pid (products db)) as [p|] eqn:Ep; [|discriminate].
    destruct (p_stock p <? qty) eqn:Es; [discriminate|].
    destruct (column_mul_int (p_sp p) qty) as [x|e]; [|discriminate].
    intros H. constructor; [|eapply IH; exact H].
    exists pid, qty, p. repeat split; auto; lia.
Qed.

(** A placement succeeds only if every line of the request can be read,
    asks for a positive quantity, names a product that exists and asks for
    no more than its stock: a malformed line, a quantity of 0, an unknown
    product or a quantity above the stock makes the whole request fail. *)
Theorem place_order_succeeds_only_on_valid_lines
        (int_of_str : string -> option Z) (now : Z) (rq : request) (db : store)
        (items : list pyval) :
  items_payload_of (json rq) = Val (Some items) ->
  is_success (fst (api_place_order int_of_str now rq db)) = true ->
  Forall (valid_line int_of_str db) items.
Proof.
  intros Hitems Hs.
  destruct (api_place_order int_of_str now rq db) as [r s1] eqn:E.
  destruct (api_place_order_success _ _ _ _ E Hs)
    as (items' & rid & g & t & prods & Hitems' & Hv & _).
  rewrite Hitems in Hitems'. injection Hitems' as <-.
  eapply validate_items_valid. exact Hv.
Qed.

(** The line of the order of the scenario is a valid line. *)
Lemma place_order_succeeds_only_on_valid_lines_witness :
  Forall (valid_line Ascii_builtins.int_of_str Scenario.stocked)
         [PDict [("product_id", PInt 1); ("qty", PInt 10)]].
Proof.
  apply (@place_order_succeeds_only_on_valid_lines
           Ascii_builtins.int_of_str 5 (Scenario.order_request 1 [(1, 10)])
           Scenario.stocked
           [PDict [("product_id", PInt 1); ("qty", PInt 10)]]).
  - reflexivity.
  - vm_compute. reflexivity.
Defined.

(** A request whose body has no [items] entry, or an [items] entry that is
    not a list, is refused with 'Items required' (status 400), and the
    store stays as it was. *)
Theorem place_order_requires_items_list
        (int_of_str : string -> option Z) (now : Z)
        (d : list (string * pyval)) (db : store) :
  items_list_missing d = true ->
  api_place_order int_of_str now (json_request (PDict d)) db
  = (Resp 400 (Error Items_required), db).
Proof.
  unfold items_list_missing, api_place_order, items_payload_of. simpl json.
  intros H. destruct (negb (truthy (PDict d))); [reflexivity|].
  destruct (lookup "items" d) as [[]|]; try discriminate; reflexivity.
Qed.

(** A request with a retailer and no items entry. *)
Lemma place_order_requires_items_list_witness :
  Scenario.place_order 5 (json_request (PDict [("retailer_id", PInt 1)]))
                       Scenario.stocked
  = (Resp 400 (Error Items_required), Scenario.stocked).
Proof.
  apply (@place_order_requires_items_list Ascii_builtins.int_of_str 5
           [("retailer_id", PInt 1)] Scenario.stocked).
  reflexivity.
Defined.

(** ** The conversions on ASCII text, on examples *)

Example int_of_str_examples :
  map Ascii_builtins.int_of_str [" 12 "; "-7"; "+1_000"; "007"; "1.5"; ""; "1__0"]
  = [Some 12; Some (-7); Some 1000; Some 7; None; None; None].
Proof. vm_compute. reflexivity. Qed.

Example float_of_str_examples :
  map Ascii_builtins.float_of_str ["15"; " 1.5 "; "1e3"; ".5e1"; "-0.25"; "abc"; "1e"]
  = [Some 15%float; Some 1.5%float; Some 1000%float; Some 5%float;
     Some (-0.25)%float; None; None].
Proof. vm_compute. reflexivity. Qed.

(** A product added from a form: every field arrives as text. *)
Example add_product_from_form :
  products
    (Scenario.serve
       [Add_product (mkRequest PNone [("name", "Salt"); ("cp", "8.5");
                                      ("sp", "10"); ("stock", "40")])]
       empty_store)
  = [mkProduct 1 (PStr "Salt") 8.5 10 0 40].
Proof. vm_compute. reflexivity. Qed.

(** * Further properties of the handlers *)

(** ** A refused request changes nothing *)

Lemma exec_failure
      (int_of_str : string -> option Z) (float_of_str : string -> option float)
      (o : op) (db : store) :
  is_success (fst (exec int_of_str float_of_str o db)) = false ->
  snd (exec int_of_str float_of_str o db) = db.
Proof.
  destruct o as [rq|rq|rq|now rq|oid|oid]; simpl.
  - unfold api_add_product.
    destruct (get (json_or_form rq) "name" PNone) as [name|e]; try reflexivity.
    destruct (add_product_fields _ _ _) as [[[[cp sp] mrp] stock]|e];
      try reflexivity.
    destruct (negb (truthy name)); try reflexivity.
    destruct (insert_product _ _ _ _ _ _); try reflexivity.
    simpl. discriminate.
  - unfold api_update_product_stock.
    destruct (update_product_stock_fields _ _ _)
      as [[[[[pid k] cp] sp] mrp]|[]]; try reflexivity.
    destruct (negb (int64 pid)); try reflexivity.
    destruct (query_get p_id pid (products db)) as [p|]; try reflexivity.
    destruct ((k >? 0) && negb (int64 _)); try reflexivity.
    simpl. discriminate.
  - unfold api_add_retailer.
    destruct (_ <- get _ _ _ ;; _) as [[[a b] c]|e]; try reflexivity.
    destruct (negb (truthy a)); try reflexivity.
    destruct (insert_retailer _ _ _ _); try reflexivity.
    simpl. discriminate.
  - apply api_place_order_failure.
  - unfold delete_order.
    destruct (query_get o_id oid (orders db)) as [o|]; try reflexivity.
    destruct (String.eqb (o_status o) "deleted"); try reflexivity.
    simpl. discriminate.
  - unfold deliver_order.
    destruct (query_get o_id oid (orders db)) as [o|]; try reflexivity.
    destruct (String.eqb (o_status o) "deleted"); try reflexivity.
    simpl. discriminate.
Qed.

(** Whatever the request, a response that is not a success (an error
    status or an uncaught exception) comes with the store the request
    found: no handler writes before it refuses. *)
Theorem refused_request_changes_nothing
        (int_of_str : string -> option Z) (float_of_str : string -> option float)
        (o : op) (db : store) :
  is_success (fst (exec int_of_str float_of_str o db)) = false ->
  snd (exec int_of_str float_of_str o db) = db.
Proof.
  intros Hfail.
  destruct (exec int_of_str float_of_str o db) as [r s] eqn:E.
  pose proof (exec_failure int_of_str float_of_str o db) as H.
  rewrite E in H. exact (H Hfail).
Qed.

(** A restock of a product that does not exist is answered 404 and
    leaves the store alone. *)
Lemma refused_request_changes_nothing_witness :
  fst (exec Ascii_builtins.int_of_str Ascii_builtins.float_of_str
         (Update_product_stock
            (json_request (PDict [("id", PInt 7); ("stock_to_add", PInt 5)])))
         Scenario.stocked)
  = Resp 404 (Error (Product_ID_not_found 7)) /\
  snd (exec Ascii_builtins.int_of_str Ascii_builtins.float_of_str
         (Update_product_stock
            (json_request (PDict [("id", PInt 7); ("stock_to_add", PInt 5)])))
         Scenario.stocked)
  = Scenario.stocked.
Proof.
  split; [vm_compute; reflexivity|].
  apply (@refused_request_changes_nothing
           Ascii_builtins.int_of_str Ascii_builtins.float_of_str
           (Update_product_stock
              (json_request (PDict [("id", PInt 7); ("stock_to_add", PInt 5)])))
           Scenario.stocked).
  vm_compute. reflexivity.
Defined.

(** ** Primary keys *)

Lemma NoDup_insert_fresh {row : Type} (key : row -> Z) (t : list row) (r : row) :
  NoDup (map key t) -> key r = next_id key t -> NoDup (map key (t ++ [r])).
Proof.
  intros Hnd Hr. rewrite map_app. simpl.
  apply NoDup_app; [exact Hnd|repeat constructor; simpl; tauto|].
  intros k Hk [Hk'|[]]. subst k.
  apply in_map_iff in Hk. destruct Hk as (x & Hx & Hin).
  pose proof (next_id_above key t) as Habove.
  rewrite Forall_forall in Habove. specialize (Habove x Hin). lia.
Qed.

Lemma add_order_items_unique (order_id : Z) (prods : list (Z * (Product * Z)))
      (s s' : store) :
  add_order_items order_id prods s = Val s' ->
  NoDup (map oi_id (order_items s)) -> NoDup (map oi_id (order_items s')).
Proof.
  revert s. induction prods as [|[pid [p qty]] prods IH]; intros s; simpl.
  - intros [= <-]. auto.
  - destruct (column_mul_int (p_sp p) qty) as [x|e]; simpl; [|discriminate].
    intros H Hnd. apply IH in H; [exact H|]. simpl.
    apply NoDup_insert_fresh; [exact Hnd|reflexivity].
Qed.

Lemma exec_unique_keys (int_of_str : string -> option Z)
      (float_of_str : string -> option float) (o : op) (db : store) :
  unique_keys db -> unique_keys (snd (exec int_of_str float_of_str o db)).
Proof.
  intros Hdb.
  destruct (is_success (fst (exec int_of_str float_of_str o db))) eqn:Es;
    [|rewrite exec_failure; assumption].
  destruct Hdb as (Hp & Hr & Ho & Hi). unfold unique_keys.
  destruct o as [rq|rq|rq|now rq|oid|oid]; simpl in *.
  - revert Es. unfold api_add_product.
    destruct (get (json_or_form rq) "name" PNone) as [name|e];
      try discriminate.
    destruct (add_product_fields _ _ _) as [[[[cp sp] mrp] stock]|e];
      try discriminate.
    destruct (negb (truthy name)); try discriminate.
    destruct (insert_product _ _ _ _ _ _) as [p|e] eqn:Ep; try discriminate.
    apply insert_product_val in Ep. destruct Ep as (text & _ & _ & _ & ->).
    simpl. intros _.
    repeat split; auto. apply NoDup_insert_fresh; [exact Hp|reflexivity].
  - destruct (api_update_product_stock_frame int_of_str float_of_str rq db)
      as (-> & -> & -> & ->). auto.
  - revert Es. unfold api_add_retailer.
    destruct (_ <- get _ _ _ ;; _) as [[[a b] c]|e]; try discriminate.
    destruct (negb (truthy a)); try discriminate.
    destruct (insert_retailer _ _ _ _) as [r|e] eqn:Er; try discriminate.
    apply insert_retailer_val in Er.
    destruct Er as (shop & addr & ph & _ & _ & _ & _ & ->).
    simpl. intros _.
    repeat split; auto. apply NoDup_insert_fresh; [exact Hr|reflexivity].
  - destruct (api_place_order int_of_str now rq db) as [r s1] eqn:E.
    simpl in *.
    destruct (api_place_order_success _ _ _ _ E Es)
      as (items & rid & g & t & prods & _ & _ & _ & Ha).
    pose proof (add_order_items_unique _ _ _ Ha Hi) as Hi'.
    apply add_order_items_spec in Ha. simpl in Ha.
    destruct Ha as (-> & -> & -> & _).
    rewrite adjust_all_keys. repeat split; auto.
    apply NoDup_insert_fresh; [exact Ho|reflexivity].
  - destruct (delete_order_frame oid db) as (-> & -> & -> & _ & ->). auto.
  - destruct (deliver_order_frame oid db) as (-> & -> & -> & -> & _). auto.
Qed.

Lemma reachable_unique_keys (int_of_str : string -> option Z)
      (float_of_str : string -> option float) (s : store) :
  reachable int_of_str float_of_str s -> unique_keys s.
Proof.
  intros [ops <-].
  apply (@run_invariant int_of_str float_of_str unique_keys (fun _ => True)).
  - intros o db _. apply exec_unique_keys.
  - apply Forall_forall. auto.
  - repeat split; constructor.
Qed.

(** In every store the application can be in, no two products, no two
    retailers, no two orders and no two order items have the same id. *)
Theorem primary_keys_unique
        (int_of_str : string -> option Z) (float_of_str : string -> option float)
        (s : store) :
  reachable int_of_str float_of_str s ->
  NoDup (map p_id (products s)) /\ NoDup (map r_id (retailers s)) /\
  NoDup (map o_id (orders s)) /\ NoDup (map oi_id (order_items s)).
Proof. apply reachable_unique_keys. Qed.

(** The store of the scenario after its order. *)
Lemma primary_keys_unique_witness :
  NoDup (map p_id (products Scenario.ordered)) /\
  NoDup (map r_id (retailers Scenario.ordered)) /\
  NoDup (map o_id (orders Scenario.ordered)) /\
  NoDup (map oi_id (order_items Scenario.ordered)).
Proof.
  apply (@primary_keys_unique
           Ascii_builtins.int_of_str Ascii_builtins.float_of_str
           Scenario.ordered).
  exists [Add_product Scenario.soap; Add_retailer Scenario.abc_store;
          Place_order 5 (Scenario.order_request 1 [(1, 10)])].
  reflexivity.
Defined.

(** ** Adding a product or a retailer, and reading it back *)

Lemma query_get_insert_other {row : Type} (key : row -> Z) (k : Z)
      (t : list row) (r : row) :
  key r <> k -> query_get key k (t ++ [r]) = query_get key k t.
Proof.
  unfold query_get. intros Hr.
  induction t as [|x t IH]; simpl.
  - destruct (key r =? k) eqn:E; [apply Z.eqb_eq in E; tauto|reflexivity].
  - destruct (key x =? k); [reflexivity|exact IH].
Qed.

Lemma insert_by_perm {A : Type} (le : A -> A -> bool) (x : A) (l : list A) :
  Permutation (insert_by le x l) (x :: l).
Proof.
  induction l as [|y l IH]; simpl; [reflexivity|].
  destruct (le x y); [reflexivity|]. rewrite IH. apply perm_swap.
Qed.

Lemma order_by_perm {A : Type} (le : A -> A -> bool) (l : list A) :
  Permutation (order_by le l) l.
Proof.
  induction l as [|x l IH]; simpl; [reflexivity|].
  rewrite insert_by_perm. constructor. exact IH.
Qed.

Lemma insert_by_sorted {A : Type} (le : A -> A -> bool) (x : A) (l : list A) :
  (forall a b, le a b = true \/ le b a = true) ->
  Sorted (fun a b => le a b = true) l ->
  Sorted (fun a b => le a b = true) (insert_by le x l).
Proof.
  intros Htotal H. induction H as [|y l Hl IH Hy]; simpl.
  - repeat constructor.
  - destruct (le x y) eqn:E.
    + constructor; [constructor; assumption|constructor; exact E].
    + constructor; [exact IH|].
      destruct l as [|z l]; simpl.
      * constructor. destruct (Htotal x y); congruence.
      * inversion Hy; subst. destruct (le x z); constructor;
          [destruct (Htotal x y); congruence|assumption].
Qed.

Lemma order_by_sorted {A : Type} (le : A -> A -> bool) (l : list A) :
  (forall a b, le a b = true \/ le b a = true) ->
  Sorted (fun a b => le a b = true) (order_by le l).
Proof.
  intros Htotal. induction l as [|x l IH]; simpl; [constructor|].
  apply insert_by_sorted; assumption.
Qed.

Lemma lookup_truthy (k : string) (d : list (string * pyval)) (v : pyval) :
  lookup k d = Some v -> truthy (PDict d) = true.
Proof. destruct d; [discriminate|reflexivity]. Qed.

(** An add-product request is a JSON object with a [name] that is not
    empty and that the text column keeps as the text [s] (a text as it is,
    a number as its decimal text), with [cp], [sp] and [mrp] that convert
    to floats and a [stock] that converts to an integer (0 for each when
    absent).  When the stock is no integer of 64 bits the request raises
    [OverflowError] and the store stays as it was.  Otherwise it is
    answered with the fresh id and the text [s]; the product can then be
    read back under that id with the text [s], the converted [cp], [sp]
    and [mrp] (NULL for a NaN) and the converted [stock], it is in the
    product listing, and every other product and table is as before. *)
Theorem add_product_then_read_back
        (int_of_str : string -> option Z) (float_of_str : string -> option float)
        (text_le : pyval -> pyval -> bool)
        (rq : request) (db : store) (d : list (string * pyval))
        (name : pyval) (s : string) (cp sp mrp : float) (stock : Z) :
  json rq = PDict d ->
  lookup "name" d = Some name ->
  truthy name = true ->
  store_text name = Val (PStr s) ->
  py_float float_of_str (field d "cp" (PInt 0)) = Val cp ->
  py_float float_of_str (field d "sp" (PInt 0)) = Val sp ->
  py_float float_of_str (field d "mrp" (PInt 0)) = Val mrp ->
  py_int int_of_str (field d "stock" (PInt 0)) = Val stock ->
  let id := next_id p_id (products db) in
  let row := mkProduct id (PStr s) (store_real cp) (store_real sp)
                       (store_real mrp) stock in
  let r := api_add_product int_of_str float_of_str rq db in
  if int64 stock
  then
    fst r = ok (Ok_product id (PStr s)) /\
    query_get p_id id (products (snd r)) = Some row /\
    In row (api_products text_le (snd r)) /\
    (forall k, k <> id ->
               query_get p_id k (products (snd r))
               = query_get p_id k (products db)) /\
    retailers (snd r) = retailers db /\ orders (snd r) = orders db /\
    order_items (snd r) = order_items db
  else r = (Unhandled OverflowError, db).
Proof.
  intros Hjson Hname Htruthy Htext Hcp Hsp Hmrp Hstock id row r.
  assert (Hdata : json_or_form rq = PDict d).
  { unfold json_or_form. rewrite Hjson, (lookup_truthy _ _ Hname).
    reflexivity. }
  assert (Hfields : add_product_fields int_of_str float_of_str (PDict d)
                    = Val (cp, sp, mrp, stock)).
  { unfold add_product_fields, get.
    fold (field d "cp" (PInt 0)). fold (field d "sp" (PInt 0)).
    fold (field d "mrp" (PInt 0)). fold (field d "stock" (PInt 0)). simpl.
    rewrite Hcp; simpl. rewrite Hsp; simpl. rewrite Hmrp; simpl.
    rewrite Hstock; simpl. reflexivity. }
  assert (Hs : r = if int64 stock
                   then (ok (Ok_product id (PStr s)),
                         with_products (products db ++ [row]) db)
                   else (Unhandled OverflowError, db)).
  { unfold r, api_add_product. rewrite Hdata. simpl get. rewrite Hname.
    rewrite Hfields, Htruthy. simpl negb. cbv iota.
    unfold insert_product, store_int. rewrite Htext. simpl.
    destruct (int64 stock); reflexivity. }
  destruct (int64 stock); [|exact Hs].
  rewrite Hs. simpl. repeat split.
  - apply query_get_fresh; [apply next_id_above|reflexivity].
  - unfold api_products.
    eapply Permutation_in; [symmetry; apply order_by_perm|].
    apply in_or_app. right. left. reflexivity.
  - intros k Hk. apply query_get_insert_other. simpl. auto.
Qed.

(** A product whose name is the number 123 and whose selling price is the
    text "nan": the name is read back as the text "123", the selling price
    as NULL. *)
Lemma add_product_then_read_back_witness :
  let r := api_add_product Ascii_builtins.int_of_str
             Ascii_builtins.float_of_str
             (json_request (PDict [("name", PInt 123); ("cp", PStr "8.5");
                                   ("sp", PStr "nan"); ("mrp", PInt 12);
                                   ("stock", PStr "40")]))
             Scenario.stocked in
  fst r = ok (Ok_product 2 (PStr "123")) /\
  map p_id (products (snd r)) = [1; 2] /\
  map p_name (products (snd r)) = [PStr "Soap"; PStr "123"] /\
  map (fun p => read_real (p_cp p)) (products (snd r)) = [Some 10; Some 8.5]%float /\
  map (fun p => read_real (p_sp p)) (products (snd r)) = [Some 15%float; None] /\
  map (fun p => read_real (p_mrp p)) (products (snd r)) = [Some 20; Some 12]%float /\
  map p_stock (products (snd r)) = [100; 40].
Proof.
  pose proof
       (@add_product_then_read_back
          Ascii_builtins.int_of_str Ascii_builtins.float_of_str binary_text_le
          (json_request (PDict [("name", PInt 123); ("cp", PStr "8.5");
                                ("sp", PStr "nan"); ("mrp", PInt 12);
                                ("stock", PStr "40")]))
          Scenario.stocked
          [("name", PInt 123); ("cp", PStr "8.5"); ("sp", PStr "nan");
           ("mrp", PInt 12); ("stock", PStr "40")]
          (PInt 123) "123" 8.5 PrimFloat.nan 12 40
          eq_refl eq_refl eq_refl eq_refl eq_refl eq_refl eq_refl eq_refl)
    as H.
  destruct H as (Hresp & _). split; [exact Hresp|].
  vm_compute. repeat split; reflexivity.
Defined.

(** What the storage engine refuses of an add-product request: a name
    that is a list, and a stock of more than 64 bits. *)
Example add_product_refused_by_the_storage_engine :
  api_add_product Ascii_builtins.int_of_str Ascii_builtins.float_of_str
    (json_request (PDict [("name", PList [PStr "Salt"])])) Scenario.stocked
  = (Unhandled DBAPIError, Scenario.stocked) /\
  api_add_product Ascii_builtins.int_of_str Ascii_builtins.float_of_str
    (json_request (PDict [("name", PStr "Salt");
                          ("stock", PInt 9223372036854775808)]))
    Scenario.stocked
  = (Unhandled OverflowError, Scenario.stocked).
Proof. vm_compute. split; reflexivity. Qed.

(** An add-retailer request is a JSON object with a [shop_name] that is
    not empty and that the text column keeps as the text [s], and with an
    [address] and a [phone] (the empty text for each when absent) that
    their columns keep as [addr] and [ph], each NULL or a text (a number
    is kept as its decimal text).  It is answered with the fresh id and
    the text [s]; the detail page of that id then shows [s], [addr] and
    [ph], and the detail of every other id is as before. *)
Theorem add_retailer_then_detail
        (rq : request) (db : store) (d : list (string * pyval))
        (shop_name : pyval) (s : string) (addr ph : pyval) :
  json rq = PDict d ->
  lookup "shop_name" d = Some shop_name ->
  truthy shop_name = true ->
  store_text shop_name = Val (PStr s) ->
  store_text (field d "address" (PStr "")) = Val addr ->
  store_text (field d "phone" (PStr "")) = Val ph ->
  null_or_text addr = true ->
  null_or_text ph = true ->
  let id := next_id r_id (retailers db) in
  let r := api_add_retailer rq db in
  fst r = ok (Ok_retailer id (PStr s)) /\
  api_retailer_detail id (snd r)
  = (200, inr (mkRetailerView id (PStr s) addr ph)) /\
  (forall k, k <> id ->
             api_retailer_detail k (snd r) = api_retailer_detail k db) /\
  products (snd r) = products db /\ orders (snd r) = orders db /\
  order_items (snd r) = order_items db.
Proof.
  intros Hjson Hname Htruthy Htext Haddr Hph _ _ id r.
  assert (Hdata : json_or_form rq = PDict d).
  { unfold json_or_form. rewrite Hjson, (lookup_truthy _ _ Hname).
    reflexivity. }
  assert (Hs : r = (ok (Ok_retailer id (PStr s)),
                    mkStore (products db)
                            (retailers db ++ [mkRetailer id (PStr s) addr ph])
                            (orders db) (order_items db))).
  { unfold r, api_add_retailer. rewrite Hdata. unfold get.
    fold (field d "address" (PStr "")). fold (field d "phone" (PStr "")).
    rewrite Hname. simpl. rewrite Htruthy. simpl.
    unfold insert_retailer. rewrite Htext, Haddr, Hph. reflexivity. }
  rewrite Hs. simpl. unfold api_retailer_detail. simpl.
  repeat split.
  - rewrite query_get_fresh; [reflexivity|apply next_id_above|reflexivity].
  - intros k Hk. rewrite query_get_insert_other; [reflexivity|simpl; auto].
Qed.

(** A second shop, added with a phone number that is a number and no
    address: the phone is shown as the text of the number. *)
Lemma add_retailer_then_detail_witness :
  let r := api_add_retailer
             (json_request (PDict [("shop_name", PStr "Corner Shop");
                                   ("phone", PInt 9876543210)]))
             Scenario.stocked in
  fst r = ok (Ok_retailer 2 (PStr "Corner Shop")) /\
  api_retailer_detail 2 (snd r)
  = (200, inr (mkRetailerView 2 (PStr "Corner Shop") (PStr "")
                              (PStr "9876543210"))) /\
  (forall k, k <> 2 ->
             api_retailer_detail k (snd r)
             = api_retailer_detail k Scenario.stocked) /\
  products (snd r) = products Scenario.stocked /\
  orders (snd r) = orders Scenario.stocked /\
  order_items (snd r) = order_items Scenario.stocked.
Proof.
  apply (@add_retailer_then_detail
           (json_request (PDict [("shop_name", PStr "Corner Shop");
                                 ("phone", PInt 9876543210)]))
           Scenario.stocked
           [("shop_name", PStr "Corner Shop"); ("phone", PInt 9876543210)]
           (PStr "Corner Shop") "Corner Shop" (PStr "") (PStr "9876543210"));
    reflexivity.
Defined.

(** ** The listings by name, and the orders of one retailer *)

Lemma binary_text_le_total (a b : pyval) :
  binary_text_le a b = true \/ binary_text_le b a = true.
Proof.
  destruct a, b; simpl; auto. apply String.leb_total.
Qed.

(** Whenever the comparison of the storage engine is total, the product
    listing holds every product of the store exactly once, in ascending
    order of the names, and the retailer listing every retailer exactly
    once, in ascending order of the shop names. *)
Theorem listings_by_name
        (text_le : pyval -> pyval -> bool) (db : store) :
  (forall a b, text_le a b = true \/ text_le b a = true) ->
  Permutation (api_products text_le db) (products db) /\
  Sorted (fun a b => text_le (p_name a) (p_name b) = true)
         (api_products text_le db) /\
  Permutation (api_retailers text_le db) (retailers db) /\
  Sorted (fun a b => text_le (r_shop_name a) (r_shop_name b) = true)
         (api_retailers text_le db).
Proof.
  intros Htotal. unfold api_products, api_retailers. repeat split.
  - apply order_by_perm.
  - apply (order_by_sorted (fun a b => text_le (p_name a) (p_name b))).
    intros a b. apply Htotal.
  - apply order_by_perm.
  - apply (order_by_sorted
             (fun a b => text_le (r_shop_name a) (r_shop_name b))).
    intros a b. apply Htotal.
Qed.

(** Soap and salt, listed salt first. *)
Lemma listings_by_name_witness :
  let s := Scenario.serve
             [Add_product (json_request (PDict [("name", PStr "Salt")]))]
             Scenario.stocked in
  Permutation (api_products binary_text_le s) (products s) /\
  Sorted (fun a b => binary_text_le (p_name a) (p_name b) = true)
         (api_products binary_text_le s) /\
  Permutation (api_retailers binary_text_le s) (retailers s) /\
  Sorted (fun a b => binary_text_le (r_shop_name a) (r_shop_name b) = true)
         (api_retailers binary_text_le s).
Proof.
  apply (@listings_by_name binary_text_le
           (Scenario.serve
              [Add_product (json_request (PDict [("name", PStr "Salt")]))]
              Scenario.stocked)
           binary_text_le_total).
Defined.

Example api_products_salt_before_soap :
  map p_name
      (api_products binary_text_le
         (Scenario.serve
            [Add_product (json_request (PDict [("name", PStr "Salt")]))]
            Scenario.stocked))
  = [PStr "Salt"; PStr "Soap"].
Proof. vm_compute. reflexivity. Qed.




(** ** Deleting an order *)

Lemma query_get_app_found {row : Type} (key : row -> Z) (k : Z)
      (t l : list row) (r : row) :
  query_get key k t = Some r -> query_get key k (t ++ l) = Some r.
Proof.
  unfold query_get. induction t as [|x t IH]; simpl; [discriminate|].
  destruct (key x =? k); auto.
Qed.

Lemma exec_keeps_deleted (int_of_str : string -> option Z)
      (float_of_str : string -> option float) (oid : Z) (o : Order)
      (rq : op) (db : store) :
  o_status o = "deleted" ->
  query_get o_id oid (orders db) = Some o ->
  query_get o_id oid (orders (snd (exec int_of_str float_of_str rq db))) = Some o.
Proof.
  intros Hst Hget. destruct rq as [rq|rq|rq|now rq|oid'|oid']; simpl.
  - destruct (api_add_product_frame int_of_str float_of_str rq db)
      as (_ & -> & _). exact Hget.
  - destruct (api_update_product_stock_frame int_of_str float_of_str rq db)
      as (_ & -> & _). exact Hget.
  - destruct (api_add_retailer_frame rq db) as (_ & -> & _). exact Hget.
  - destruct (is_success (fst (api_place_order int_of_str now rq db))) eqn:Es.
    + destruct (api_place_order int_of_str now rq db) as [r s1] eqn:E.
      simpl in *.
      destruct (api_place_order_success _ _ _ _ E Es)
        as (items & rid & g & t & prods & _ & _ & _ & Ha).
      apply add_order_items_spec in Ha. simpl in Ha.
      destruct Ha as (_ & -> & _). apply query_get_app_found. exact Hget.
    + rewrite api_place_order_failure; assumption.
  - unfold delete_order.
    destruct (query_get o_id oid' (orders db)) as [o'|] eqn:E; [|exact Hget].
    destruct (String.eqb (o_status o') "deleted") eqn:Ed; [exact Hget|].
    simpl. destruct (Z.eq_dec oid oid') as [<-|Hne].
    + rewrite Hget in E. injection E as <-. rewrite Hst in Ed. discriminate.
    + apply query_get_some in E. destruct E as [-> _].
      rewrite query_get_modify_other; [exact Hget|reflexivity|exact Hne].
  - unfold deliver_order.
    destruct (query_get o_id oid' (orders db)) as [o'|] eqn:E; [|exact Hget].
    destruct (String.eqb (o_status o') "deleted") eqn:Ed; [exact Hget|].
    simpl. destruct (Z.eq_dec oid oid') as [<-|Hne].
    + rewrite Hget in E. injection E as <-. rewrite Hst in Ed. discriminate.
    + apply query_get_some in E. destruct E as [-> _].
      rewrite query_get_modify_other; [exact Hget|reflexivity|exact Hne].
Qed.

(** Deletion is final: once an order has the status "deleted", no sequence
    of requests changes its row again; it stays deleted, with its totals. *)
Theorem deleted_order_is_final
        (int_of_str : string -> option Z) (float_of_str : string -> option float)
        (oid : Z) (o : Order) (db : store) (ops : list op) :
  query_get o_id oid (orders db) = Some o ->
  o_status o = "deleted" ->
  query_get o_id oid (orders (run int_of_str float_of_str ops db)) = Some o.
Proof.
  intros Hget Hst.
  apply (@run_invariant int_of_str float_of_str
           (fun s => query_get o_id oid (orders s) = Some o) (fun _ => True)).
  - intros rq s _. apply exec_keeps_deleted. exact Hst.
  - apply Forall_forall. auto.
  - exact Hget.
Qed.

(** The deleted order of the scenario, after a delivery, a second deletion,
    a restock and a new order. *)
Lemma deleted_order_is_final_witness :
  query_get o_id 1
    (orders
       (run Ascii_builtins.int_of_str Ascii_builtins.float_of_str
          [Deliver_order 1; Delete_order 1;
           Update_product_stock
             (json_request (PDict [("id", PInt 1); ("stock_to_add", PInt 5)]));
           Place_order 9 (Scenario.order_request 1 [(1, 2)])]
          (Scenario.serve [Delete_order 1] Scenario.ordered)))
  = Some (mkOrder 1 1 5 150 10 "deleted").
Proof.
  apply (@deleted_order_is_final
           Ascii_builtins.int_of_str Ascii_builtins.float_of_str 1
           (mkOrder 1 1 5 150 10 "deleted")
           (Scenario.serve [Delete_order 1] Scenario.ordered)).
  - vm_compute. reflexivity.
  - reflexivity.
Defined.





Lemma modify_in_unique {row : Type} (key : row -> Z) (k : Z) (f : row -> row)
      (t : list row) (r x : row) :
  NoDup (map key t) -> key (f r) = key r ->
  query_get key k t = Some r ->
  In x (modify key k f t) -> key x = k -> x = f r.
Proof.
  unfold query_get. intros Hnd Hf.
  induction t as [|y t IH]; simpl; [discriminate|].
  inversion Hnd as [|? ? Hnotin Hnd']; subst.
  destruct (key y =? k) eqn:E.
  - apply Z.eqb_eq in E. intros [= ->] [Hx|Hx] Hk; [auto|].
    exfalso. apply Hnotin. rewrite E, <- Hk. apply in_map. exact Hx.
  - apply Z.eqb_neq in E. intros Hget [Hx|Hx] Hk.
    + subst x. tauto.
    + apply IH; assumption.
Qed.

(** In a store the application can be in, an order that has just been
    deleted is on no listing of active orders, neither the general one nor
    that of any retailer, and every line the export has for it carries the
    status "deleted". *)
Theorem deleted_order_leaves_the_listings
        (int_of_str : string -> option Z) (float_of_str : string -> option float)
        (oid : Z) (db s : store) :
  reachable int_of_str float_of_str db ->
  delete_order oid db = (ok Ok, s) ->
  Forall (fun v => (ov_id v =? oid) = false) (api_orders s) /\
  (forall rid,
      Forall (fun v => (rov_id v =? oid) = false) (api_retailer_orders rid s)) /\
  Forall (fun row => csv_order_id row = oid -> csv_status row = "deleted")
         (export_csv s).
Proof.
  intros Hreach Hdel.
  apply reachable_unique_keys in Hreach. destruct Hreach as (_ & _ & Hnd & _).
  unfold delete_order in Hdel.
  destruct (query_get o_id oid (orders db)) as [o|] eqn:Hget; [|discriminate].
  destruct (String.eqb (o_status o) "deleted"); [discriminate|].
  injection Hdel as <-.
  destruct (query_get_some _ _ _ Hget) as [Hid _].
  assert (Hdeleted : forall o', In o' (modify o_id (o_id o) (set_status "deleted")
                                             (orders db)) ->
                                o_id o' = oid -> o_status o' = "deleted").
  { intros o' Hin Hk. rewrite Hid in Hin.
    rewrite (@modify_in_unique Order o_id oid (set_status "deleted")
               (orders db) o o' Hnd eq_refl Hget Hin Hk). reflexivity. }
  assert (Hactive : forall o', In o' (modify o_id (o_id o) (set_status "deleted")
                                            (orders db)) ->
                               negb (String.eqb (o_status o') "deleted") = true ->
                               (o_id o' =? oid) = false).
  { intros o' Hin Hact. apply Z.eqb_neq. intros Hk.
    rewrite (Hdeleted o' Hin Hk) in Hact. discriminate. }
  repeat split.
  - unfold api_orders, active_orders. simpl. apply Forall_map.
    apply Forall_forall. intros o' Hin. simpl.
    eapply Permutation_in in Hin; [|apply order_by_date_desc_perm].
    apply filter_In in Hin. destruct Hin as [Hin Hact]. auto.
  - intros rid. unfold api_retailer_orders. simpl. apply Forall_map.
    apply Forall_forall. intros o' Hin. simpl.
    eapply Permutation_in in Hin; [|apply order_by_date_desc_perm].
    apply filter_In in Hin. destruct Hin as [Hin Hact].
    apply filter_In in Hin. destruct Hin as [Hin _]. auto.
  - unfold export_csv. simpl. apply Forall_forall. intros row Hrow Hk.
    apply in_flat_map in Hrow. destruct Hrow as (o' & Hin & Hrow).
    eapply Permutation_in in Hin; [|apply order_by_date_desc_perm].
    unfold rows_of_order in Hrow. apply in_map_iff in Hrow.
    destruct Hrow as (it & <- & _). simpl in *. auto.
Qed.

(** The order of the scenario, deleted. *)
Lemma deleted_order_leaves_the_listings_witness :
  let s := Scenario.serve [Delete_order 1] Scenario.ordered in
  Forall (fun v => (ov_id v =? 1) = false) (api_orders s) /\
  (forall rid,
      Forall (fun v => (rov_id v =? 1) = false) (api_retailer_orders rid s)) /\
  Forall (fun row => csv_order_id row = 1 -> csv_status row = "deleted")
         (export_csv s).
Proof.
  apply (@deleted_order_leaves_the_listings
           Ascii_builtins.int_of_str Ascii_builtins.float_of_str 1
           Scenario.ordered
           (Scenario.serve [Delete_order 1] Scenario.ordered)).
  - exists [Add_product Scenario.soap; Add_retailer Scenario.abc_store;
            Place_order 5 (Scenario.order_request 1 [(1, 10)])].
    reflexivity.
  - vm_compute. reflexivity.
Defined.

(** ** Rows are kept *)

Lemma modify_map {row B : Type} (key : row -> Z) (g : row -> B) (k : Z)
      (f : row -> row) (t : list row) :
  (forall r, g (f r) = g r) -> map g (modify key k f t) = map g t.
Proof.
  intros Hg. induction t as [|x t IH]; simpl; [reflexivity|].
  destruct (key x =? k); simpl; [rewrite Hg|rewrite IH]; reflexivity.
Qed.

Lemma add_stock_core (k d : Z) (ps : list Product) :
  map product_core (add_stock k d ps) = map product_core ps.
Proof. unfold add_stock. apply modify_map. reflexivity. Qed.

Lemma adjust_all_core (l : list (Z * Z)) (ps : list Product) :
  map product_core (adjust_all l ps) = map product_core ps.
Proof.
  revert ps. unfold adjust_all.
  induction l as [|e l IH]; intros ps; simpl; [reflexivity|].
  rewrite IH. apply add_stock_core.
Qed.

Lemma restore_stock_core (items : list OrderItem) (ps : list Product) :
  map product_core (restore_stock items ps) = map product_core ps.
Proof.
  revert ps. induction items as [|it items IH]; intros ps; simpl; [reflexivity|].
  destruct (query_get p_id (oi_product_id it) ps); rewrite IH;
    [apply add_stock_core|reflexivity].
Qed.

Lemma extends_refl (db : store) : extends db db.
Proof.
  repeat split; exists []; rewrite app_nil_r; reflexivity.
Qed.

Lemma extends_trans (a b c : store) : extends a b -> extends b c -> extends a c.
Proof.
  intros ([p1 Hp1] & [r1 Hr1] & [o1 Ho1] & [i1 Hi1])
         ([p2 Hp2] & [r2 Hr2] & [o2 Ho2] & [i2 Hi2]).
  repeat split.
  - exists (p1 ++ p2). rewrite Hp2, Hp1, app_assoc. reflexivity.
  - exists (r1 ++ r2). rewrite Hr2, Hr1, app_assoc. reflexivity.
  - exists (o1 ++ o2). rewrite Ho2, Ho1, app_assoc. reflexivity.
  - exists (i1 ++ i2). rewrite Hi2, Hi1, app_assoc. reflexivity.
Qed.

Lemma exec_extends (int_of_str : string -> option Z)
      (float_of_str : string -> option float) (o : op) (db : store) :
  extends db (snd (exec int_of_str float_of_str o db)).
Proof.
  destruct (is_success (fst (exec int_of_str float_of_str o db))) eqn:Es;
    [|rewrite exec_failure; [apply extends_refl|assumption]].
  assert (Hsame : forall (A : Type) (l : list A), exists x, l = l ++ x)
    by (intros A l; exists []; rewrite app_nil_r; reflexivity).
  unfold extends.
  destruct o as [rq|rq|rq|now rq|oid|oid]; simpl in *.
  - revert Es. unfold api_add_product.
    destruct (get (json_or_form rq) "name" PNone) as [name|e];
      try discriminate.
    destruct (add_product_fields _ _ _) as [[[[cp sp] mrp] stock]|e];
      try discriminate.
    destruct (negb (truthy name)); try discriminate.
    destruct (insert_product _ _ _ _ _ _); try discriminate.
    simpl. intros _.
    repeat split; auto. rewrite map_app. eauto.
  - revert Es. unfold api_update_product_stock.
    destruct (update_product_stock_fields _ _ _)
      as [[[[[pid k] cp] sp] mrp]|[]]; try discriminate.
    destruct (negb (int64 pid)); try discriminate.
    destruct (query_get p_id pid (products db)) as [p|]; try discriminate.
    destruct ((k >? 0) && negb (int64 _)); try discriminate.
    simpl. intros _. repeat split; auto. exists [].
    rewrite app_nil_r. destruct (k >? 0); rewrite ?add_stock_core;
      apply modify_map; reflexivity.
  - revert Es. unfold api_add_retailer.
    destruct (_ <- get _ _ _ ;; _) as [[[a b] c]|e]; try discriminate.
    destruct (negb (truthy a)); try discriminate.
    destruct (insert_retailer _ _ _ _); try discriminate.
    simpl. intros _.
    repeat split; eauto.
  - destruct (api_place_order int_of_str now rq db) as [r s1] eqn:E.
    simpl in *.
    destruct (api_place_order_success _ _ _ _ E Es)
      as (items & rid & g & t & prods & _ & _ & _ & Ha).
    apply add_order_items_spec in Ha. simpl in Ha.
    destruct Ha as (-> & -> & -> & new & -> & _).
    repeat split; eauto.
    + exists []. rewrite app_nil_r. apply adjust_all_core.
    + rewrite map_app. eauto.
  - revert Es. unfold delete_order.
    destruct (query_get o_id oid (orders db)) as [o|]; try discriminate.
    destruct (String.eqb (o_status o) "deleted"); try discriminate.
    simpl. intros _. repeat split; auto.
    + exists []. rewrite app_nil_r. apply restore_stock_core.
    + exists []. rewrite app_nil_r. apply modify_map. reflexivity.
  - revert Es. unfold deliver_order.
    destruct (query_get o_id oid (orders db)) as [o|]; try discriminate.
    destruct (String.eqb (o_status o) "deleted"); try discriminate.
    simpl. intros _. repeat split; auto.
    exists []. rewrite app_nil_r. apply modify_map. reflexivity.
Qed.

(** No sequence of requests removes, moves or rewrites a row: after it,
    every product is where it was with its id and name (only prices and
    stock change), every retailer and every order item is unchanged, and
    every order is unchanged in all but its status; new rows come after
    the old ones. *)
Theorem rows_are_never_removed
        (int_of_str : string -> option Z) (float_of_str : string -> option float)
        (ops : list op) (db : store) :
  extends db (run int_of_str float_of_str ops db).
Proof.
  revert db. unfold run.
  induction ops as [|o ops IH]; intros db; simpl.
  - apply extends_refl.
  - eapply extends_trans; [apply exec_extends|apply IH].
Qed.

(** ** What an order item records *)

(** In a store the application can be in, every item of the order a
    successful placement creates records the product it names as the
    product is at that moment, its name, [cp], [sp] and [mrp], with a
    positive quantity the stock covered and [item_total = sp * qty]. *)
Theorem placed_items_are_snapshots
        (int_of_str : string -> option Z) (float_of_str : string -> option float)
        (now : Z) (rq : request) (db s1 : store) (oid : Z) :
  reachable int_of_str float_of_str db ->
  api_place_order int_of_str now rq db = (ok (Ok_order_id oid), s1) ->
  Forall (fun it => exists p,
              query_get p_id (oi_product_id it) (products db) = Some p /\
              snapshot_of p it)
         (items_of_order oid s1).
Proof.
  intros Hreach Hplace.
  apply reachable_items_have_orders in Hreach.
  destruct (api_place_order_success _ _ _ _ Hplace eq_refl)
    as (items & rid & g & t & prods & _ & Hv & Hr & Ha).
  injection Hr as ->.
  apply validate_items_held in Hv; [|constructor|constructor].
  destruct Hv as [_ Hheld].
  apply add_order_items_spec in Ha. simpl in Ha.
  destruct Ha as (_ & _ & _ & new & Hi & Hnew).
  assert (Hitems : items_of_order (next_id o_id (orders db)) s1 = new).
  { unfold items_of_order. rewrite Hi. apply items_of_fresh_order; auto.
    eapply Forall2_right; [|exact Hnew]. intros e it (H & _). exact H. }
  rewrite Hitems. clear - Hheld Hnew.
  induction Hnew as [|[pid [p qty]] it prods new Hit H IH]; constructor.
  - inversion Hheld as [|? ? [Hq Hs] _]; subst. simpl in *.
    destruct Hit as (_ & Hpid & Hname & Hcp & Hsp & Hmrp & Hqty & Htotal).
    simpl in *. exists p. unfold snapshot_of.
    pose proof (query_get_some _ _ _ Hq) as [Hk _].
    rewrite Hpid, Hk, Hqty. repeat split; auto; lia.
  - apply IH. inversion Hheld; assumption.
Qed.

(** The item of the order of the scenario records the soap as it was. *)
Lemma placed_items_are_snapshots_witness :
  Forall (fun it => exists p,
              query_get p_id (oi_product_id it) (products Scenario.stocked)
              = Some p /\
              snapshot_of p it)
         (items_of_order 1 Scenario.ordered).
Proof.
  apply (@placed_items_are_snapshots
           Ascii_builtins.int_of_str Ascii_builtins.float_of_str 5
           (Scenario.order_request 1 [(1, 10)]) Scenario.stocked
           Scenario.ordered 1).
  - exists [Add_product Scenario.soap; Add_retailer Scenario.abc_store].
    reflexivity.
  - vm_compute. reflexivity.
Defined.

(** ** The outcome of a well-formed order request *)

Lemma validate_items_first_refusal (int_of_str : string -> option Z)
      (db : store) (good : list pyval) (bad : pyval) (rest : list pyval)
      (r : response) (acc : totals) :
  Forall (fun it => line_refusal int_of_str db it = None) good ->
  line_refusal int_of_str db bad = Some r ->
  validate_items int_of_str db (good ++ bad :: rest) acc = inl r.
Proof.
  intros Hgood Hbad. revert acc.
  induction Hgood as [|it good Hit Hgood IH]; intros [[g t] prods]; simpl.
  - revert Hbad. unfold line_refusal.
    destruct (item_fields int_of_str bad) as [[pid qty]|e]; [|congruence].
    destruct (qty <=? 0); [congruence|].
    destruct (negb (int64 pid)); [congruence|].
    destruct (query_get p_id pid (products db)) as [p|]; [|congruence].
    destruct (p_stock p <? qty); [congruence|].
    destruct (column_mul_int (p_sp p) qty); [discriminate|congruence].
  - revert Hit. unfold line_refusal.
    destruct (item_fields int_of_str it) as [[pid qty]|e]; [|discriminate].
    destruct (qty <=? 0); [discriminate|].
    destruct (negb (int64 pid)); [discriminate|].
    destruct (query_get p_id pid (products db)) as [p|]; [|discriminate].
    destruct (p_stock p <? qty); [discriminate|].
    destruct (column_mul_int (p_sp p) qty); [|discriminate].
    intros _. apply IH.
Qed.

Lemma validate_items_all_pass (int_of_str : string -> option Z)
      (db : store) (items : list pyval) (g : float) (t : Z)
      (prods : list (Z * (Product * Z))) :
  Forall (fun it => line_refusal int_of_str db it = None) items ->
  Forall (fun e => exists x, column_mul_int (p_sp (fst (snd e))) (snd (snd e))
                             = Val x) prods ->
  exists g' prods',
    validate_items int_of_str db items (g, t, prods)
    = inr (g', t + requested_total int_of_str items, prods') /\
    Forall (fun e => exists x, column_mul_int (p_sp (fst (snd e))) (snd (snd e))
                               = Val x) prods'.
Proof.
  intros Hitems. revert g t prods. unfold requested_total.
  induction Hitems as [|it items Hit Hitems IH]; intros g t prods Hp; simpl.
  - rewrite Z.add_0_r. eauto.
  - revert Hit. unfold line_refusal.
    destruct (item_fields int_of_str it) as [[pid qty]|e]; [|discriminate].
    destruct (qty <=? 0); [discriminate|].
    destruct (negb (int64 pid)); [discriminate|].
    destruct (query_get p_id pid (products db)) as [p|]; [|discriminate].
    destruct (p_stock p <? qty); [discriminate|].
    destruct (column_mul_int (p_sp p) qty) as [x|e] eqn:Ex; [|discriminate].
    intros _. simpl. rewrite Z.add_assoc. apply IH.
    apply dict_set_Forall; [exact Hp|].
    simpl. eauto.
Qed.

Lemma add_order_items_total (order_id : Z) (prods : list (Z * (Product * Z)))
      (s : store) :
  Forall (fun e => exists x, column_mul_int (p_sp (fst (snd e))) (snd (snd e))
                             = Val x) prods ->
  exists s', add_order_items order_id prods s = Val s'.
Proof.
  intros H. revert s.
  induction H as [|[pid [p qty]] prods [x Hx] H IH]; intros s; simpl.
  - eauto.
  - simpl in Hx. rewrite Hx. simpl. apply IH.
Qed.

(** A well-formed order request (an items list and a retailer reference
    the handler accepts) is answered by the first line the validation
    refuses, each line being read against the stock the request found: 400
    for a line that cannot be read or asks for 0 or less,
    [OverflowError] for a product id that is no integer of 64 bits, 404
    for an unknown product, 409 for a quantity above the stock, and the
    exception the multiplication raises ([TypeError] for a product whose
    selling price is NULL); the store stays as it was. *)
Theorem place_order_refused_at_first_bad_line
        (int_of_str : string -> option Z) (now : Z) (rq : request) (db : store)
        (retailer_id : Z) (good : list pyval) (bad : pyval) (rest : list pyval)
        (r : response) :
  well_formed_order int_of_str rq (good ++ bad :: rest) retailer_id ->
  Forall (fun it => line_refusal int_of_str db it = None) good ->
  line_refusal int_of_str db bad = Some r ->
  api_place_order int_of_str now rq db = (r, db).
Proof.
  intros (Hitems & v & Hv & Htruthy & Hblank & Hint) Hgood Hbad.
  unfold api_place_order.
  rewrite Hitems, Hv, Htruthy, Hblank, Hint. simpl.
  erewrite validate_items_first_refusal; [reflexivity|exact Hgood|exact Hbad].
Qed.

(** Two pieces of soap, then a product that does not exist: 404, and
    the soap keeps its stock.  With a second product whose selling price
    was sent as the text "nan", which its column keeps as NULL: a line on
    that product, then a product that does not exist, is answered by the
    [TypeError] of the first line. *)
Lemma place_order_refused_at_first_bad_line_witness :
  Scenario.place_order 5 (Scenario.order_request 1 [(1, 2); (8, 1)])
                       Scenario.stocked
  = (Resp 404 (Error (Product_id_not_found 8)), Scenario.stocked) /\
  (let db := Scenario.serve
               [Add_product
                  (json_request (PDict [("name", PStr "Salt");
                                        ("sp", PStr "nan");
                                        ("stock", PInt 5)]))]
               Scenario.stocked in
   Scenario.place_order 5 (Scenario.order_request 1 [(2, 1); (8, 1)]) db
   = (Unhandled TypeError, db)).
Proof.
  split.
  - apply (@place_order_refused_at_first_bad_line
             Ascii_builtins.int_of_str 5
             (Scenario.order_request 1 [(1, 2); (8, 1)]) Scenario.stocked 1
             [PDict [("product_id", PInt 1); ("qty", PInt 2)]]
             (PDict [("product_id", PInt 8); ("qty", PInt 1)]) []).
    + split; [reflexivity|]. exists (PInt 1). repeat split; reflexivity.
    + repeat constructor.
    + reflexivity.
  - apply (@place_order_refused_at_first_bad_line
             Ascii_builtins.int_of_str 5
             (Scenario.order_request 1 [(2, 1); (8, 1)])
             (Scenario.serve
                [Add_product
                   (json_request (PDict [("name", PStr "Salt");
                                         ("sp", PStr "nan");
                                         ("stock", PInt 5)]))]
                Scenario.stocked)
             1 []
             (PDict [("product_id", PInt 2); ("qty", PInt 1)])
             [PDict [("product_id", PInt 8); ("qty", PInt 1)]]).
    + split; [reflexivity|]. exists (PInt 1). repeat split; reflexivity.
    + constructor.
    + vm_compute. reflexivity.
Defined.

(** A well-formed order request none of whose lines the validation
    refuses, with a retailer id and a sum of quantities that are integers
    of 64 bits, succeeds: it is answered with the id the new order gets,
    the order is inserted as pending for the retailer, and the store keeps
    every earlier row. *)
Theorem place_order_accepted_when_every_line_passes
        (int_of_str : string -> option Z) (now : Z) (rq : request) (db : store)
        (retailer_id : Z) (items : list pyval) :
  well_formed_order int_of_str rq items retailer_id ->
  Forall (fun it => line_refusal int_of_str db it = None) items ->
  int64 retailer_id = true ->
  int64 (requested_total int_of_str items) = true ->
  exists s o,
    api_place_order int_of_str now rq db
    = (ok (Ok_order_id (next_id o_id (orders db))), s) /\
    query_get o_id (next_id o_id (orders db)) (orders s) = Some o /\
    o_retailer_id o = retailer_id /\ o_date o = now /\
    o_status o = "pending" /\
    extends db s.
Proof.
  intros (Hitems & v & Hv & Htruthy & Hblank & Hint) Hpass Hrid Htotal.
  destruct (@validate_items_all_pass int_of_str db items (0%float) 0 []
              Hpass (Forall_nil _)) as (g & prods & Hval & Hprods).
  simpl in Hval.
  destruct (@add_order_items_total (next_id o_id (orders db)) prods
              (with_orders
                 (orders db ++ [mkOrder (next_id o_id (orders db)) retailer_id
                                        now g
                                        (requested_total int_of_str items)
                                        "pending"]) db) Hprods)
    as [s Hs].
  assert (Hplace : api_place_order int_of_str now rq db
                   = (ok (Ok_order_id (next_id o_id (orders db))), s)).
  { unfold api_place_order.
    rewrite Hitems, Hv, Htruthy, Hblank, Hint. simpl.
    rewrite Hval. rewrite Hrid, Htotal. simpl. rewrite store_real_id.
    rewrite Hs. reflexivity. }
  exists s, (mkOrder (next_id o_id (orders db)) retailer_id now g
                     (requested_total int_of_str items) "pending").
  split; [exact Hplace|].
  assert (Hspec := Hs). apply add_order_items_spec in Hspec.
  destruct Hspec as (_ & Ho & _). simpl in Ho.
  split; [|split; [reflexivity|split; [reflexivity|split; [reflexivity|]]]].
  - rewrite Ho. apply query_get_fresh; [apply next_id_above|reflexivity].
  - pose proof (exec_extends int_of_str (fun _ => None)
                  (Place_order now rq) db) as H.
    simpl in H. rewrite Hplace in H. exact H.
Qed.

(** The order of the scenario. *)
Lemma place_order_accepted_when_every_line_passes_witness :
  exists s o,
    Scenario.place_order 5 (Scenario.order_request 1 [(1, 10)]) Scenario.stocked
    = (ok (Ok_order_id (next_id o_id (orders Scenario.stocked))), s) /\
    query_get o_id (next_id o_id (orders Scenario.stocked)) (orders s) = Some o /\
    o_retailer_id o = 1 /\ o_date o = 5 /\ o_status o = "pending" /\
    extends Scenario.stocked s.
Proof.
  apply (@place_order_accepted_when_every_line_passes
           Ascii_builtins.int_of_str 5
           (Scenario.order_request 1 [(1, 10)]) Scenario.stocked 1
           [PDict [("product_id", PInt 1); ("qty", PInt 10)]]).
  - split; [reflexivity|]. exists (PInt 1). repeat split; reflexivity.
  - repeat constructor.
  - reflexivity.
  - reflexivity.
Defined.
